(** * MCP chatbot client (src/app.py): shallow embedding and verified properties

    The Streamlit script keeps its state in [st.session_state], talks to the
    server with [requests.post] and reads the wall clock.  The embedding
    threads an explicit [world] through a small state-and-exception monad;
    the network and the clock are oracles collected in an [env]. *)

From Stdlib Require Import ZArith Lia Ascii String.
From stdpp Require Import base list strings pretty.

Set Warnings "-register-all".
Local Open Scope string_scope.
Local Open Scope Z_scope.
Local Open Scope list_scope.

(** ** The Python values the program handles *)

Module Py.

(** Values produced by [response.json()] and consumed by [json.dumps].
    Integers are unbounded as in Python.  The program never computes with a
    float, it only prints one, so a float is carried as its [repr] text.
    A text is the sequence of the bytes of its UTF-8 encoding.
    A dict keeps insertion order; lookup takes the first binding of a key. *)
Inductive jvalue :=
| JNull
| JBool (b : bool)
| JInt (z : Z)
| JFloat (r : string)
| JString (s : string)
| JList (l : list jvalue)
| JDict (kvs : list (string * jvalue)).

Definition nl : string := String "010"%char "".
Definition dquote : ascii := "034"%char.
Definition squote : ascii := "039"%char.
Definition backslash : ascii := "092"%char.

Definition join (sep : string) (l : list string) : string :=
  match l with
  | [] => ""
  | x :: xs => fold_left (fun acc y => acc +:+ sep +:+ y) xs x
  end.

Fixpoint has_char (c : ascii) (s : string) : bool :=
  match s with
  | "" => false
  | String a s' => if Ascii.eqb a c then true else has_char c s'
  end.

Fixpoint is_prefix (p s : string) : bool :=
  match p, s with
  | "", _ => true
  | String a p', String b s' => if Ascii.eqb a b then is_prefix p' s' else false
  | String _ _, "" => false
  end.

(** [sub in s] on two Python strings. *)
Fixpoint is_substring (sub s : string) : bool :=
  if is_prefix sub s then true
  else match s with
       | "" => false
       | String _ s' => is_substring sub s'
       end.

Definition hex_digit (n : N) : ascii :=
  ascii_of_N (if (n <? 10)%N then 48 + n else 87 + n)%N.

Definition hex2 (n : N) : string :=
  String (hex_digit (n / 16 mod 16)%N) (String (hex_digit (n mod 16)%N) "").

Definition hex4 (n : N) : string :=
  hex2 (n / 256 mod 256)%N +:+ hex2 (n mod 256)%N.

(** Truth value of a string: [if s:] holds unless [s] is empty. *)
Definition truthy (s : string) : bool :=
  match s with "" => false | _ => true end.

(** [s.upper()] on the ASCII letters (the program applies it to the
    literals 'info', 'success' and 'error' only). *)
Definition upper_char (a : ascii) : ascii :=
  let n := N_of_ascii a in
  if ((97 <=? n) && (n <=? 122))%N then ascii_of_N (n - 32) else a.

Fixpoint upper (s : string) : string :=
  match s with
  | "" => ""
  | String a s' => String (upper_char a) (upper s')
  end.

(** *** [repr] and [str] *)

Definition hex8 (n : N) : string :=
  hex4 (n / 65536 mod 65536)%N +:+ hex4 (n mod 65536)%N.

(** A character of ASCII in [repr], between quotes [q]. *)
Definition repr_char (q a : ascii) : string :=
  let n := N_of_ascii a in
  if Ascii.eqb a backslash then String backslash (String backslash "")
  else if Ascii.eqb a q then String backslash (String q "")
  else if (n =? 10)%N then String backslash "n"
  else if (n =? 13)%N then String backslash "r"
  else if (n =? 9)%N then String backslash "t"
  else if ((n <? 32) || (n =? 127))%N then String backslash ("x" +:+ hex2 n)
  else String a "".

(** The escape of a code point above 127 that is not printable. *)
Definition repr_escape (cp : N) : string :=
  if (cp <? 256)%N then String backslash ("x" +:+ hex2 cp)
  else if (cp <? 65536)%N then String backslash ("u" +:+ hex4 cp)
  else String backslash ("U" +:+ hex8 cp).

Definition utf8_cont (a : ascii) : N := (N_of_ascii a mod 64)%N.

Section Repr.

(** Whether [str.isprintable] holds of a code point above 127; it is read
    off the Unicode table of the interpreter. *)
Context (isprintable : N -> bool).

(** A character above 127, given by its code point and its bytes: kept
    when it is printable, escaped otherwise. *)
Definition repr_wide (cp : N) (bytes : string) : string :=
  if isprintable cp then bytes else repr_escape cp.

(** The text is UTF-8: one to four bytes make a character. *)
Fixpoint repr_chars (q : ascii) (s : string) : string :=
  match s with
  | "" => ""
  | String a s1 =>
      let n := N_of_ascii a in
      if (n <? 128)%N then repr_char q a +:+ repr_chars q s1
      else
        match s1 with
        | "" => ""
        | String b s2 =>
            if (n <? 224)%N then
              repr_wide ((n mod 32) * 64 + utf8_cont b)%N (String a (String b ""))
                +:+ repr_chars q s2
            else
              match s2 with
              | "" => ""
              | String c s3 =>
                  if (n <? 240)%N then
                    repr_wide (((n mod 16) * 64 + utf8_cont b) * 64 + utf8_cont c)%N
                      (String a (String b (String c "")))
                      +:+ repr_chars q s3
                  else
                    match s3 with
                    | "" => ""
                    | String d s4 =>
                        repr_wide
                          ((((n mod 8) * 64 + utf8_cont b) * 64 + utf8_cont c) * 64
                           + utf8_cont d)%N
                          (String a (String b (String c (String d ""))))
                          +:+ repr_chars q s4
                    end
              end
        end
  end.

(** [repr(s)] of a string: single quotes, unless the text has a single
    quote and no double quote; a character that is not printable is
    written as [\xhh], [\uhhhh] or [\Uhhhhhhhh]. *)
Definition repr_str (s : string) : string :=
  let q := if has_char squote s && negb (has_char dquote s) then dquote else squote in
  String q (repr_chars q s +:+ String q "").

Fixpoint repr (v : jvalue) : string :=
  match v with
  | JNull => "None"
  | JBool true => "True"
  | JBool false => "False"
  | JInt z => pretty z
  | JFloat r => r
  | JString s => repr_str s
  | JList l => "[" +:+ join ", " (map repr l) +:+ "]"
  | JDict kvs =>
      "{" +:+ join ", " (map (fun '(k, x) => repr_str k +:+ ": " +:+ repr x) kvs) +:+ "}"
  end.

(** [str(v)], also what an f-string writes for [{v}]. *)
Definition str (v : jvalue) : string :=
  match v with
  | JString s => s
  | _ => repr v
  end.

End Repr.

(** *** [json.dumps] with its default [ensure_ascii=True] *)

Definition json_escape_ascii (a : ascii) : string :=
  let n := N_of_ascii a in
  if Ascii.eqb a dquote then String backslash (String dquote "")
  else if Ascii.eqb a backslash then String backslash (String backslash "")
  else if (n =? 10)%N then String backslash "n"
  else if (n =? 13)%N then String backslash "r"
  else if (n =? 9)%N then String backslash "t"
  else if (n =? 8)%N then String backslash "b"
  else if (n =? 12)%N then String backslash "f"
  else if ((n <? 32) || (n =? 127))%N then String backslash ("u" +:+ hex4 n)
  else String a "".

(** A code point outside ASCII is written as one or two UTF-16 escapes. *)
Definition json_escape_cp (cp : N) : string :=
  if (cp <? 65536)%N then String backslash ("u" +:+ hex4 cp)
  else
    let c := (cp - 65536)%N in
    String backslash ("u" +:+ hex4 (55296 + c / 1024)%N) +:+
    String backslash ("u" +:+ hex4 (56320 + c mod 1024)%N).

Definition cont (a : ascii) : N := (N_of_ascii a mod 64)%N.

(** The text is UTF-8: one to four bytes make a code point. *)
Fixpoint json_escape (s : string) : string :=
  match s with
  | "" => ""
  | String a s1 =>
      let n := N_of_ascii a in
      if (n <? 128)%N then json_escape_ascii a +:+ json_escape s1
      else
        match s1 with
        | "" => ""
        | String b s2 =>
            if (n <? 224)%N then
              json_escape_cp ((n mod 32) * 64 + cont b)%N +:+ json_escape s2
            else
              match s2 with
              | "" => ""
              | String c s3 =>
                  if (n <? 240)%N then
                    json_escape_cp (((n mod 16) * 64 + cont b) * 64 + cont c)%N
                      +:+ json_escape s3
                  else
                    match s3 with
                    | "" => ""
                    | String d s4 =>
                        json_escape_cp
                          ((((n mod 8) * 64 + cont b) * 64 + cont c) * 64 + cont d)%N
                          +:+ json_escape s4
                    end
              end
        end
  end.

Definition json_quote (s : string) : string :=
  String dquote (json_escape s +:+ String dquote "").

Definition json_float (r : string) : string :=
  if String.eqb r "inf" then "Infinity"
  else if String.eqb r "-inf" then "-Infinity"
  else if String.eqb r "nan" then "NaN"
  else r.

Fixpoint spaces (n : nat) : string :=
  match n with O => "" | S n' => String " "%char (spaces n') end.

(** [indent = None] is the compact form with separators [", "] and [": "];
    [indent = Some k] puts each item on its own line, [k] spaces a level. *)
Fixpoint dumps_at (indent : option nat) (level : nat) (v : jvalue) : string :=
  let '(first, sep, last) :=
    match indent with
    | None => ("", ", ", "")
    | Some k => (nl +:+ spaces (k * S level)%nat,
                 "," +:+ nl +:+ spaces (k * S level)%nat,
                 nl +:+ spaces (k * level)%nat)
    end in
  match v with
  | JNull => "null"
  | JBool true => "true"
  | JBool false => "false"
  | JInt z => pretty z
  | JFloat r => json_float r
  | JString s => json_quote s
  | JList l =>
      match l with
      | [] => "[]"
      | _ => "[" +:+ first +:+ join sep (map (dumps_at indent (S level)) l) +:+ last +:+ "]"
      end
  | JDict kvs =>
      match kvs with
      | [] => "{}"
      | _ =>
          "{" +:+ first +:+
          join sep (map (fun '(k, x) =>
                      json_quote k +:+ ": " +:+ dumps_at indent (S level) x) kvs)
          +:+ last +:+ "}"
      end
  end.

Definition json_dumps (v : jvalue) : string := dumps_at None 0 v.
Definition json_dumps_indent (k : nat) (v : jvalue) : string := dumps_at (Some k) 0 v.

(** *** Exceptions *)

(** The exception classes that can occur in the program.  [Timeout] and
    [ConnectionError] are those of [requests.exceptions]; a connect timeout
    is an instance of both.  [RerunException] is Streamlit's control-flow
    signal raised by [st.rerun()]; it does not derive from [Exception]. *)
Inductive exc_class :=
| ReadTimeout | ConnectTimeout | ConnectionError | RequestException
| JSONDecodeError | TypeError | AttributeError | KeyError | IndexError
| Exception | RerunException.

(** An exception object: its class and the text [str(e)] gives. *)
Record exn := Exc { exn_class : exc_class; str_exn : string }.

Definition isinstance_Timeout (e : exn) : bool :=
  match exn_class e with ReadTimeout | ConnectTimeout => true | _ => false end.

Definition isinstance_ConnectionError (e : exn) : bool :=
  match exn_class e with ConnectTimeout | ConnectionError => true | _ => false end.

Definition isinstance_Exception (e : exn) : bool :=
  match exn_class e with RerunException => false | _ => true end.

Inductive result (A : Type) :=
| Ok (a : A)
| Raise (e : exn).
Arguments Ok {A} a.
Arguments Raise {A} e.

(** *** Operators on values *)

Definition type_name (v : jvalue) : string :=
  match v with
  | JNull => "NoneType" | JBool _ => "bool" | JInt _ => "int" | JFloat _ => "float"
  | JString _ => "str" | JList _ => "list" | JDict _ => "dict"
  end.

Fixpoint dict_lookup (k : string) (kvs : list (string * jvalue)) : option jvalue :=
  match kvs with
  | [] => None
  | (k', x) :: rest => if String.eqb k k' then Some x else dict_lookup k rest
  end.

Definition is_str (k : string) (v : jvalue) : bool :=
  match v with JString s => String.eqb k s | _ => false end.

(** [k in v] for a string [k]: key of a dict, element of a list, substring
    of a string; anything else is not a container. *)
Definition contains (k : string) (v : jvalue) : result bool :=
  match v with
  | JDict kvs => Ok (bool_decide (is_Some (dict_lookup k kvs)))
  | JList l => Ok (existsb (is_str k) l)
  | JString s => Ok (is_substring k s)
  | _ => Raise (Exc TypeError ("argument of type '" +:+ type_name v +:+ "' is not iterable"))
  end.

(** [v[k]] for a string [k]; the text of a [KeyError] is the [repr] of
    the key, for which [isprintable] is the table of the interpreter. *)
Definition getitem_str (isprintable : N -> bool) (v : jvalue) (k : string) :
    result jvalue :=
  match v with
  | JDict kvs =>
      match dict_lookup k kvs with
      | Some x => Ok x
      | None => Raise (Exc KeyError (repr_str isprintable k))
      end
  | JList _ => Raise (Exc TypeError "list indices must be integers or slices, not str")
  | JString _ => Raise (Exc TypeError "string indices must be integers, not 'str'")
  | _ => Raise (Exc TypeError ("'" +:+ type_name v +:+ "' object is not subscriptable"))
  end.

(** The first code point of a non-empty UTF-8 text. *)
Definition first_char (s : string) : string :=
  match s with
  | "" => ""
  | String a s1 =>
      let n := N_of_ascii a in
      let k := if (n <? 192)%N then 0%nat else if (n <? 224)%N then 1%nat
               else if (n <? 240)%N then 2%nat else 3%nat in
      String a (String.substring 0 k s1)
  end.

(** [v[0]]. *)
Definition getitem_0 (v : jvalue) : result jvalue :=
  match v with
  | JList l =>
      match l with
      | x :: _ => Ok x
      | [] => Raise (Exc IndexError "list index out of range")
      end
  | JString s =>
      if truthy s then Ok (JString (first_char s))
      else Raise (Exc IndexError "string index out of range")
  | JDict _ => Raise (Exc KeyError "0")
  | _ => Raise (Exc TypeError ("'" +:+ type_name v +:+ "' object is not subscriptable"))
  end.

(** [v.get(k, default)]: only a dict has the method. *)
Definition get (v : jvalue) (k : string) (default : jvalue) : result jvalue :=
  match v with
  | JDict kvs =>
      Ok (match dict_lookup k kvs with Some x => x | None => default end)
  | _ => Raise (Exc AttributeError
                  ("'" +:+ type_name v +:+ "' object has no attribute 'get'"))
  end.

(** [l[-n:]]: the last [n] items, all of them when there are fewer. *)
Definition slice_last {A} (n : nat) (l : list A) : list A :=
  drop (length l - n)%nat l.

End Py.

(** ** The HTTP exchange *)

Module Http.
Import Py.

(** One call of [requests.post(url, json=..., headers=..., timeout=...)]. *)
Record request := {
  req_url : string;
  req_json : jvalue;
  req_headers : list (string * string);
  req_timeout : Z
}.

(** What [response.json()] gives: the parsed body, or [JSONDecodeError]
    with its text when the body is no JSON. *)
Inductive parsed :=
| Json (v : jvalue)
| NotJson (msg : string).

Record response := {
  status_code : Z;
  text : string;
  json : parsed
}.

(** The ways [requests.post] raises, each with the text of the exception. *)
Inductive fault :=
| FaultReadTimeout (msg : string)
| FaultConnectTimeout (msg : string)
| FaultConnectionError (msg : string)
| FaultOther (msg : string).

Definition exn_of_fault (f : fault) : exn :=
  match f with
  | FaultReadTimeout m => Exc ReadTimeout m
  | FaultConnectTimeout m => Exc ConnectTimeout m
  | FaultConnectionError m => Exc ConnectionError m
  | FaultOther m => Exc RequestException m
  end.

Inductive outcome :=
| Responds (r : response)
| Fails (f : fault).

End Http.

(** ** The program *)

Module App.
Import Py Http.

Inductive role_kind := user | assistant.

(** An entry of [st.session_state.messages].  A user message is stored
    without the key ['is_error']; the display reads it with default False. *)
Record chat_message := {
  role : role_kind;
  content : jvalue;
  timestamp : string;
  is_error : option bool
}.

Definition get_is_error (m : chat_message) : bool :=
  match is_error m with Some b => b | None => false end.

Inductive status := status_unknown | status_connected | status_error.

Record log_entry := {
  log_time : string;
  log_type : string;
  log_message : string
}.

Record session_state := {
  messages : list chat_message;
  session_id : string;
  connection_status : status;
  debug_logs : list log_entry
}.

(** What a run writes on the page, in order. *)
Inductive element :=
| st_error (body : string)
| st_warning (body : string)
| st_success (body : string)
| st_text (body : string)
| st_subheader (body : string)
| st_divider.

(** [sent] lists the calls of [requests.post] so far, [stdout] the lines
    printed, [clock] counts the readings of the wall clock. *)
Record world := {
  state : session_state;
  sent : list request;
  stdout : list string;
  page : list element;
  clock : nat
}.

(** The environment: the outcome of the n-th POST, what the n-th reading
    of the clock shows, as [int(time.time() * 1000)] and through
    [datetime.now().strftime(format)], and the Unicode table of the
    interpreter, as [str.isprintable] on a code point above 127. *)
Record env := {
  requests_post : nat -> request -> outcome;
  time_ms : nat -> Z;
  strftime : nat -> string -> string;
  isprintable : N -> bool
}.

Definition M (A : Type) : Type := world -> result A * world.

#[global] Instance M_ret : MRet M := fun A a w => (Ok a, w).

#[global] Instance M_bind : MBind M := fun A B k m w =>
  match m w with
  | (Ok a, w') => k a w'
  | (Raise e, w') => (Raise e, w')
  end.

Definition raise {A} (e : exn) : M A := fun w => (Raise e, w).

Definition lift {A} (r : result A) : M A := fun w => (r, w).

(** [try: body / except Exception as e: handler e]. *)
Definition try_except {A} (body : M A) (handler : exn -> M A) : M A := fun w =>
  match body w with
  | (Ok a, w') => (Ok a, w')
  | (Raise e, w') => if isinstance_Exception e then handler e w' else (Raise e, w')
  end.

Fixpoint for_each {A} (l : list A) (body : A -> M unit) : M unit :=
  match l with
  | [] => mret tt
  | x :: rest => body x ;; for_each rest body
  end.

Definition update_state (f : session_state -> session_state) (w : world) : world :=
  {| state := f (state w); sent := sent w; stdout := stdout w;
     page := page w; clock := clock w |}.

Definition get_state : M session_state := fun w => (Ok (state w), w).

Definition modify_state (f : session_state -> session_state) : M unit := fun w =>
  (Ok tt, update_state f w).

Definition set_messages (l : list chat_message) (s : session_state) : session_state :=
  {| messages := l; session_id := session_id s;
     connection_status := connection_status s; debug_logs := debug_logs s |}.

Definition set_session_id (i : string) (s : session_state) : session_state :=
  {| messages := messages s; session_id := i;
     connection_status := connection_status s; debug_logs := debug_logs s |}.

Definition set_connection_status (c : status) (s : session_state) : session_state :=
  {| messages := messages s; session_id := session_id s;
     connection_status := c; debug_logs := debug_logs s |}.

Definition set_debug_logs (l : list log_entry) (s : session_state) : session_state :=
  {| messages := messages s; session_id := session_id s;
     connection_status := connection_status s; debug_logs := l |}.

Definition print (line : string) : M unit := fun w =>
  (Ok tt, {| state := state w; sent := sent w; stdout := stdout w ++ [line];
             page := page w; clock := clock w |}).

Definition show (e : element) : M unit := fun w =>
  (Ok tt, {| state := state w; sent := sent w; stdout := stdout w;
             page := page w ++ [e]; clock := clock w |}).

Definition tick (w : world) : world :=
  {| state := state w; sent := sent w; stdout := stdout w;
     page := page w; clock := S (clock w) |}.

(** [st.rerun()] stops the run. *)
Definition st_rerun : M unit := raise (Exc RerunException "").

Section Program.
Context (E : env).

(** [int(time.time() * 1000)] *)
Definition now_ms : M Z := fun w => (Ok (time_ms E (clock w)), tick w).

(** [datetime.now().strftime(format)] *)
Definition now_strftime (format : string) : M string := fun w =>
  (Ok (strftime E (clock w) format), tick w).

Definition post (url : string) (body : jvalue) (headers : list (string * string))
    (timeout : Z) : M response := fun w =>
  let r := {| req_url := url; req_json := body;
              req_headers := headers; req_timeout := timeout |} in
  let w' := {| state := state w; sent := sent w ++ [r]; stdout := stdout w;
               page := page w; clock := clock w |} in
  match requests_post E (length (sent w)) r with
  | Responds resp => (Ok resp, w')
  | Fails f => (Raise (exn_of_fault f), w')
  end.

(** [response.json()] *)
Definition response_json (r : response) : M jvalue :=
  match json r with
  | Json v => mret v
  | NotJson msg => raise (Exc JSONDecodeError msg)
  end.

Definition add_debug_log (message : string) (log_type : string) : M unit :=
  timestamp ← now_strftime "%H:%M:%S";
  modify_state (fun s =>
    set_debug_logs (debug_logs s ++
      [{| log_time := timestamp; log_type := log_type; log_message := message |}]) s) ;;
  print ("[" +:+ upper log_type +:+ "] " +:+ message).

Definition json_headers : list (string * string) :=
  [("Content-Type", "application/json")].

Definition tools_call_body (id : Z) (tool_name : string) (arguments : jvalue) : jvalue :=
  JDict [("jsonrpc", JString "2.0");
         ("id", JInt id);
         ("method", JString "tools/call");
         ("params", JDict [("name", JString tool_name); ("arguments", arguments)])].

Definition call_mcp_tool (server_url tool_name : string) (arguments : jvalue) : M jvalue :=
  try_except
    (id ← now_ms;
     let request_body := tools_call_body id tool_name arguments in
     add_debug_log ("Calling tool: " +:+ tool_name) "info" ;;
     add_debug_log ("Request: " +:+ json_dumps_indent 2 request_body) "info" ;;
     response ← post server_url request_body json_headers 30;
     add_debug_log ("Response status: " +:+ pretty (status_code response)) "info" ;;
     add_debug_log ("Response: " +:+ text response) "info" ;;
     data ← response_json response;
     has_error ← lift (contains "error" data);
     (if has_error : bool then
        err ← lift (getitem_str (isprintable E) data "error");
        m ← lift (get err "message" (JString (str (isprintable E) err)));
        raise (Exc Exception (str (isprintable E) m))
      else mret tt) ;;
     lift (getitem_str (isprintable E) data "result"))
    (fun e =>
       if isinstance_Timeout e then
         raise (Exc Exception "Request timed out. The server took too long to respond.")
       else if isinstance_ConnectionError e then
         raise (Exc Exception "Connection failed. Check your server URL.")
       else
         raise (Exc Exception ("Error: " +:+ str_exn e))).

Definition initialize_body : jvalue :=
  JDict [("jsonrpc", JString "2.0");
         ("id", JInt 1);
         ("method", JString "initialize");
         ("params", JDict [])].

Definition test_connection (server_url : string) : M (bool * string) :=
  try_except
    (add_debug_log ("Testing connection to: " +:+ server_url) "info" ;;
     let request_body := initialize_body in
     response ← post server_url request_body json_headers 10;
     add_debug_log ("Response status: " +:+ pretty (status_code response)) "info" ;;
     data ← response_json response;
     has_error ← lift (contains "error" data);
     if has_error : bool then
       err ← lift (getitem_str (isprintable E) data "error");
       add_debug_log ("Server error: " +:+ json_dumps err) "error" ;;
       m ← lift (get err "message" (JString "Unknown error"));
       mret (false, "Server error: " +:+ str (isprintable E) m)
     else
       has_result ← lift (contains "result" data);
       if has_result : bool then
         res ← lift (getitem_str (isprintable E) data "result");
         info ← lift (get res "serverInfo" (JDict []));
         server_name ← lift (get info "name" (JString "Unknown"));
         add_debug_log
           ("✓ Connection successful! Server: " +:+ str (isprintable E) server_name)
           "success" ;;
         mret (true, "Connected to " +:+ str (isprintable E) server_name)
       else
         mret (false, "Unexpected response format"))
    (fun e =>
       add_debug_log ("Connection failed: " +:+ str_exn e) "error" ;;
       mret (false, str_exn e)).

(** *** Sidebar *)

(** Body of [if st.button("Test Connection"):]. *)
Definition test_connection_button (server_url : string) : M unit :=
  if truthy server_url then
    r ← test_connection server_url;
    let '(success, message) := r in
    if success : bool then
      modify_state (set_connection_status status_connected) ;;
      show (st_success message)
    else
      modify_state (set_connection_status status_error) ;;
      show (st_error message)
  else
    show (st_warning "Please enter a server URL first").

(** Body of [if st.button("Clear Chat"):]. *)
Definition clear_chat_button : M unit :=
  modify_state (set_messages []) ;;
  st_rerun.

(** The text [f"session-{int(time.time() * 1000)}"]. *)
Definition session_name (ms : Z) : string := "session-" +:+ pretty ms.

(** Body of [if st.button("New Session"):]. *)
Definition new_session_button : M unit :=
  modify_state (set_messages []) ;;
  ms ← now_ms;
  modify_state (set_session_id (session_name ms)) ;;
  st_rerun.

(** *** Chat input *)

Definition append_message (m : chat_message) : M unit :=
  modify_state (fun s => set_messages (messages s ++ [m]) s).

(** The expression [result['content'][0]['text']]. *)
Definition response_text_of (result : jvalue) : Py.result jvalue :=
  match getitem_str (isprintable E) result "content" with
  | Ok c =>
      match getitem_0 c with
      | Ok c0 => getitem_str (isprintable E) c0 "text"
      | Raise e => Raise e
      end
  | Raise e => Raise e
  end.

Definition error_content (e : exn) : string :=
  "Error: " +:+ str_exn e +:+ nl +:+ nl +:+ "Please check your server URL and API keys.".

(** The block [if user_input:] at the end of the page; [user_input] is
    what [st.chat_input] returned, [None] when nothing was submitted. *)
Definition chat_input (server_url provider model : string) (use_memory : bool)
    (user_input : option string) : M unit :=
  match user_input with
  | None => mret tt
  | Some user_input =>
      if truthy user_input then
        if negb (truthy server_url) then
          show (st_error "⚠️ Please configure your MCP Server URL in the sidebar first!")
        else
          timestamp ← now_strftime "%I:%M %p";
          append_message {| role := user; content := JString user_input;
                            timestamp := timestamp; is_error := None |} ;;
          try_except
            (s ← get_state;
             let '(tool_name, arguments) :=
               if use_memory then
                 ("conversation_with_memory",
                  JDict [("message", JString user_input);
                         ("sessionId", JString (session_id s));
                         ("provider", JString provider)])
               else
                 ("chat",
                  JDict [("message", JString user_input);
                         ("provider", JString provider);
                         ("model", JString model)]) in
             result ← call_mcp_tool server_url tool_name arguments;
             response_text ← lift (response_text_of result);
             t ← now_strftime "%I:%M %p";
             append_message {| role := assistant; content := response_text;
                               timestamp := t; is_error := Some false |})
            (fun e =>
               t ← now_strftime "%I:%M %p";
               append_message {| role := assistant; content := JString (error_content e);
                                 timestamp := t; is_error := Some true |}) ;;
          st_rerun
      else mret tt
  end.

(** *** Debug logs *)

Definition log_color (t : string) : string :=
  if String.eqb t "error" then "🔴"
  else if String.eqb t "success" then "🟢"
  else if String.eqb t "info" then "🔵"
  else "⚪".

Definition log_line (log : log_entry) : string :=
  log_color (log_type log) +:+ " [" +:+ log_time log +:+ "] " +:+ log_message log.

(** The block [if show_debug and len(st.session_state.debug_logs) > 0:];
    [clear_clicked] is what [st.button("Clear Debug Logs")] returned. *)
Definition debug_logs_section (show_debug clear_clicked : bool) : M unit :=
  s ← get_state;
  if show_debug && (0 <? Z.of_nat (length (debug_logs s))) then
    show st_divider ;;
    show (st_subheader "🐛 Debug Logs") ;;
    (if clear_clicked then
       modify_state (set_debug_logs []) ;;
       st_rerun
     else mret tt) ;;
    s' ← get_state;
    for_each (slice_last 20 (debug_logs s')) (fun log => show (st_text (log_line log)))
  else mret tt.

(** *** First run *)

(** The block "Initialize session state" of a first run, when no key is
    in [st.session_state] yet: one reading of the clock names the session. *)
Definition first_run : world :=
  {| state := {| messages := []; session_id := session_name (time_ms E 0);
                 connection_status := status_unknown; debug_logs := [] |};
     sent := []; stdout := []; page := []; clock := 1 |}.

End Program.

(** *** Shapes of a response, for the statements below *)

(** The operators on values raise ordinary errors only: never a request
    error, never the rerun signal. *)
Definition ordinary (e : exn) : Prop :=
  isinstance_Exception e = true /\
  isinstance_Timeout e = false /\
  isinstance_ConnectionError e = false.


(** The tool and the arguments a turn selects. *)
Definition selected (provider model : string) (use_memory : bool)
    (user_input session : string) : string * jvalue :=
  if use_memory then
    ("conversation_with_memory",
     JDict [("message", JString user_input);
            ("sessionId", JString session);
            ("provider", JString provider)])
  else
    ("chat",
     JDict [("message", JString user_input);
            ("provider", JString provider);
            ("model", JString model)]).

(** The assistant message a turn ends with, given how the tool call went. *)
Definition reply (E : env) (r : result jvalue) (t : string) : chat_message :=
  match r with
  | Ok res =>
      match response_text_of E res with
      | Ok text =>
          {| role := assistant; content := text; timestamp := t; is_error := Some false |}
      | Raise e =>
          {| role := assistant; content := JString (error_content e);
             timestamp := t; is_error := Some true |}
      end
  | Raise e =>
      {| role := assistant; content := JString (error_content e);
         timestamp := t; is_error := Some true |}
  end.


Definition initialize_request (server_url : string) : request :=
  {| req_url := server_url; req_json := initialize_body;
     req_headers := json_headers; req_timeout := 10 |}.

Definition tools_call_request (server_url : string) (id : Z) (tool_name : string)
    (arguments : jvalue) : request :=
  {| req_url := server_url; req_json := tools_call_body id tool_name arguments;
     req_headers := json_headers; req_timeout := 30 |}.

End App.

(** ** Concrete environments *)

Module Demo.
Import Py Http App.

(** A server that gives the same outcome to every request; the clock
    advances one millisecond a reading from [t0].  The texts of the
    examples are ASCII, for which the Unicode table is not consulted; the
    one given here holds every character above 127 printable. *)
Definition env_of (t0 : Z) (o : outcome) : env :=
  {| requests_post := fun _ _ => o;
     time_ms := fun n => t0 + Z.of_nat n;
     strftime := fun _ format => if String.eqb format "%H:%M:%S" then "09:30:00"
                                 else "09:30 AM";
     isprintable := fun _ => true |}.

(** The same server under a clock that stands still. *)
Definition frozen_env (t0 : Z) (o : outcome) : env :=
  {| requests_post := fun _ _ => o;
     time_ms := fun _ => t0;
     strftime := fun _ format => if String.eqb format "%H:%M:%S" then "09:30:00"
                                 else "09:30 AM";
     isprintable := fun _ => true |}.

Definition answer (code : Z) (v : jvalue) : outcome :=
  Responds {| status_code := code; text := json_dumps v; json := Json v |}.

Definition url : string := "http://localhost:3000/mcp".

Definition bad_key : jvalue :=
  JDict [("error", JDict [("message", JString "bad key")])].

Definition fuse : jvalue :=
  JDict [("result", JDict [("serverInfo", JDict [("name", JString "Fuse")])])].

Definition error_and_result : jvalue :=
  JDict [("error", JDict [("message", JString "bad key")]);
         ("result", JDict [("serverInfo", JDict [("name", JString "Fuse")])])].


Definition read_timeout : fault :=
  FaultReadTimeout "Read timed out. (read timeout=30)".

(** The servers of the examples, each with the first run of the page. *)
Definition fuse_server : env := env_of 1700000000000 (answer 200 fuse).
Definition frozen_server : env := frozen_env 1700000000000 (answer 200 fuse).
Definition bad_key_server : env := env_of 1700000000000 (answer 200 bad_key).
Definition both_server : env := env_of 1700000000000 (answer 200 error_and_result).
Definition silent_server : env := env_of 1700000000000 (Fails read_timeout).

End Demo.

(** ** Interactions with the page *)

Module Page.
Import Py Http App.

(** A message as the turn stores the user's: role user, no ['is_error']. *)
Definition user_entry (m : chat_message) : bool :=
  match role m, is_error m with
  | user, None => true
  | _, _ => false
  end.

(** A message as the turn stores the reply: role assistant, ['is_error']
    set. *)
Definition assistant_entry (m : chat_message) : bool :=
  match role m, is_error m with
  | assistant, Some _ => true
  | _, _ => false
  end.

(** A message log made of turns: a user message, then its reply. *)
Fixpoint paired (l : list chat_message) : bool :=
  match l with
  | [] => true
  | u :: l' =>
      match l' with
      | [] => false
      | a :: rest => user_entry u && assistant_entry a && paired rest
      end
  end.

(** The three log types that [log_color] knows. *)
Definition known_type (t : string) : bool :=
  String.eqb t "info" || String.eqb t "success" || String.eqb t "error".

(** The line [add_debug_log] prints for an entry. *)
Definition printed_line (e : log_entry) : string :=
  "[" +:+ upper (log_type e) +:+ "] " +:+ log_message e.

(** The debug log of [w'] continues that of [w]: entries were added at the
    end, each of a known type and each printed as well. *)
Definition logs_extended (w w' : world) : Prop :=
  exists new,
    debug_logs (state w') = debug_logs (state w) ++ new /\
    stdout w' = stdout w ++ map printed_line new /\
    Forall (fun e => known_type (log_type e) = true) new.

(** One interaction: the block of the page that its widget guards, with
    the values of the widgets the block reads. *)
Inductive interaction :=
| TestConnection (server_url : string)
| ClearChat
| NewSession
| ChatInput (server_url provider model : string) (use_memory : bool)
    (user_input : option string)
| DebugLogs (show_debug clear_clicked : bool).

Definition interact (E : env) (i : interaction) : M unit :=
  match i with
  | TestConnection server_url => test_connection_button E server_url
  | ClearChat => clear_chat_button
  | NewSession => new_session_button E
  | ChatInput server_url provider model use_memory user_input =>
      chat_input E server_url provider model use_memory user_input
  | DebugLogs show_debug clear_clicked => debug_logs_section show_debug clear_clicked
  end.

(** The world after a sequence of interactions. *)
Fixpoint interactions (E : env) (l : list interaction) (w : world) : world :=
  match l with
  | [] => w
  | i :: rest => interactions E rest (interact E i w).2
  end.

(** What holds of the session state at every moment. *)
Definition healthy (w : world) : Prop :=
  paired (messages (state w)) = true /\
  (exists ms, session_id (state w) = session_name ms) /\
  Forall (fun e => known_type (log_type e) = true) (debug_logs (state w)).

End Page.

(** ** More concrete environments *)

Module Cases.
Import Py Http App.

Definition hello : jvalue :=
  JDict [("result",
          JDict [("content",
                  JList [JDict [("type", JString "text");
                                ("text", JString "Hello!")]])])].

Definition empty_result : jvalue := JDict [("result", JDict [])].

Definition empty_object : jvalue := JDict [].

Definition error_code_only : jvalue :=
  JDict [("error", JDict [("code", JInt (-32000))])].

Definition error_text : jvalue := JDict [("error", JString "boom")].

Definition unreachable : fault :=
  FaultConnectionError "Connection refused".

Definition bad_gateway : response :=
  {| status_code := 502; text := "Bad Gateway";
     json := NotJson "Expecting value: line 1 column 1 (char 0)" |}.

Definition hello_server : env := Demo.env_of 1700000000000 (Demo.answer 200 hello).
Definition empty_result_server : env :=
  Demo.env_of 1700000000000 (Demo.answer 200 empty_result).
Definition empty_object_server : env :=
  Demo.env_of 1700000000000 (Demo.answer 200 empty_object).
Definition error_code_server : env :=
  Demo.env_of 1700000000000 (Demo.answer 200 error_code_only).
Definition error_text_server : env :=
  Demo.env_of 1700000000000 (Demo.answer 200 error_text).
Definition unreachable_server : env :=
  Demo.env_of 1700000000000 (Fails unreachable).
Definition gateway_server : env :=
  Demo.env_of 1700000000000 (Responds bad_gateway).

(** A name that is a list holding a text with a no-break space (U+00A0,
    the bytes 194 160), under a table in which that character is not
    printable. *)
Definition nbsp : string := String "194"%char (String "160"%char "").

Definition spaced_name : jvalue :=
  JDict [("result",
          JDict [("serverInfo",
                  JDict [("name", JList [JString ("a" +:+ nbsp +:+ "b")])])])].

Definition spaced_server : env :=
  {| requests_post := fun _ _ => Demo.answer 200 spaced_name;
     time_ms := fun n => 1700000000000 + Z.of_nat n;
     strftime := fun _ _ => "09:30:00";
     isprintable := fun cp => negb (cp =? 160)%N |}.

End Cases.

(** ** Proof tools *)

Import Py Http App.

(** The monad's operations, unfolded to functions on worlds. *)
Ltac unfold_ops :=
  unfold try_except, add_debug_log, post, response_json, now_ms, now_strftime,
    append_message, get_state, modify_state, print, show, st_rerun, lift, raise,
    mbind, M_bind, mret, M_ret in *.

(** Simplification that leaves the printers alone. *)
Ltac simp :=
  cbn -[pretty json_dumps_indent json_dumps upper String.append str repr
        error_content session_name call_mcp_tool test_connection].

Ltac simp_in H :=
  cbn -[pretty json_dumps_indent json_dumps upper String.append str repr
        error_content session_name call_mcp_tool test_connection] in H.

Lemma contains_raises k v e : contains k v = Raise e -> ordinary e.
Proof. destruct v; intros [= <-]; repeat split. Qed.

Lemma getitem_str_raises p v k e : getitem_str p v k = Raise e -> ordinary e.
Proof.
  destruct v; simpl; try (intros [= <-]; repeat split).
  destruct (dict_lookup k kvs); intros [= <-]; repeat split.
Qed.

Lemma getitem_0_raises v e : getitem_0 v = Raise e -> ordinary e.
Proof.
  destruct v; simpl; try (intros [= <-]; repeat split).
  - destruct (truthy s); intros [= <-]; repeat split.
  - destruct l; intros [= <-]; repeat split.
Qed.

Lemma get_raises v k d e : get v k d = Raise e -> ordinary e.
Proof. destruct v; intros [= <-]; repeat split. Qed.

(** Which handler takes an ordinary error is known. *)
Ltac caught :=
  repeat match goal with
  | H : ordinary ?e |- context [isinstance_Exception ?e] =>
      rewrite (proj1 H)
  | H : ordinary ?e |- context [isinstance_Timeout ?e] =>
      rewrite (proj1 (proj2 H))
  | H : ordinary ?e |- context [isinstance_ConnectionError ?e] =>
      rewrite (proj2 (proj2 H))
  end.

(** One case split on what the environment or a value decides. *)
Ltac run_step :=
  match goal with
  | |- context [match ?x with _ => _ end] =>
      lazymatch x with
      | requests_post _ _ _ => destruct x as [?|[]] eqn:?
      | json _ => destruct x eqn:?
      | contains _ _ =>
          let H := fresh in destruct x eqn:H; [| apply contains_raises in H]
      | getitem_str _ _ _ =>
          let H := fresh in destruct x eqn:H; [| apply getitem_str_raises in H]
      | getitem_0 _ =>
          let H := fresh in destruct x eqn:H; [| apply getitem_0_raises in H]
      | get _ _ _ =>
          let H := fresh in destruct x eqn:H; [| apply get_raises in H]
      end
  | |- context [if ?b then _ else _] => destruct b eqn:?
  end.

(** A world that has been built up is put aside under a name. *)
Ltac park :=
  repeat match goal with
  | |- context [(_, ?W)] =>
      lazymatch type of W with world => idtac end;
      tryif is_var W then fail else
        (let w' := fresh "w" in remember W as w' in |- *)
  end.

Ltac run := unfold_ops; simp; park; repeat (run_step; simp; caught; simp; park).

(** At a leaf the worlds put aside come back. *)
Ltac unpark := subst; simp.

Lemma truthy_nonempty (s : string) : s <> "" -> truthy s = true.
Proof. destruct s; [congruence | reflexivity]. Qed.

(** ** What a tool call leaves behind *)

Section ToolCall.
Context (E : env).

(** A tool call touches the debug log, the output and the clock; of the
    rest it only extends the list of requests, by one. *)
Lemma call_mcp_tool_frame server_url tool_name arguments w :
  let w' := (call_mcp_tool E server_url tool_name arguments w).2 in
  messages (state w') = messages (state w) /\
  session_id (state w') = session_id (state w) /\
  connection_status (state w') = connection_status (state w) /\
  page w' = page w /\
  sent w' = sent w ++
    [tools_call_request server_url (time_ms E (clock w)) tool_name arguments].
Proof.
  unfold call_mcp_tool, tools_call_request. run; unpark; repeat split; reflexivity.
Qed.

(** Whatever goes wrong inside a tool call leaves it as a plain
    [Exception]. *)
Lemma call_mcp_tool_raises server_url tool_name arguments w e :
  (call_mcp_tool E server_url tool_name arguments w).1 = Raise e ->
  exn_class e = Exception.
Proof.
  unfold call_mcp_tool. run; intros [= <-]; reflexivity.
Qed.

Lemma call_mcp_tool_fails server_url tool_name arguments w f :
  requests_post E (length (sent w))
    (tools_call_request server_url (time_ms E (clock w)) tool_name arguments) = Fails f ->
  (call_mcp_tool E server_url tool_name arguments w).1 =
    Raise (Exc Exception
      (if isinstance_Timeout (exn_of_fault f) then
         "Request timed out. The server took too long to respond."
       else if isinstance_ConnectionError (exn_of_fault f) then
         "Connection failed. Check your server URL."
       else "Error: " +:+ str_exn (exn_of_fault f))).
Proof.
  intros H. unfold call_mcp_tool, tools_call_request in *. unfold_ops. simp.
  rewrite H. destruct f; reflexivity.
Qed.

Lemma call_mcp_tool_result server_url tool_name arguments w r kvs res :
  requests_post E (length (sent w))
    (tools_call_request server_url (time_ms E (clock w)) tool_name arguments)
    = Responds r ->
  json r = Json (JDict kvs) ->
  dict_lookup "error" kvs = None ->
  dict_lookup "result" kvs = Some res ->
  (call_mcp_tool E server_url tool_name arguments w).1 = Ok res.
Proof.
  intros H Hj He Hr. unfold call_mcp_tool, tools_call_request in *. unfold_ops. simp.
  rewrite H. simp. rewrite Hj. simp. rewrite He. simp. rewrite Hr. reflexivity.
Qed.

Lemma call_mcp_tool_error server_url tool_name arguments w r kvs ekvs m :
  requests_post E (length (sent w))
    (tools_call_request server_url (time_ms E (clock w)) tool_name arguments)
    = Responds r ->
  json r = Json (JDict kvs) ->
  dict_lookup "error" kvs = Some (JDict ekvs) ->
  dict_lookup "message" ekvs = Some m ->
  (call_mcp_tool E server_url tool_name arguments w).1 =
    Raise (Exc Exception ("Error: " +:+ str (isprintable E) m)).
Proof.
  intros H Hj He Hm. unfold call_mcp_tool, tools_call_request in *. unfold_ops. simp.
  rewrite H. simp. rewrite Hj. simp. rewrite He. simp. rewrite Hm. reflexivity.
Qed.

End ToolCall.


(** ** The chat turn *)

Section ChatTurn.
Context (E : env).

Lemma response_text_of_raises res e : response_text_of E res = Raise e -> ordinary e.
Proof.
  unfold response_text_of.
  destruct (getitem_str (isprintable E) res "content") as [c|e1] eqn:H1.
  - destruct (getitem_0 c) as [c0|e2] eqn:H2.
    + apply getitem_str_raises.
    + intros [= <-]. eapply getitem_0_raises, H2.
  - intros [= <-]. eapply getitem_str_raises, H1.
Qed.

Lemma call_mcp_tool_caught server_url tool_name arguments w e :
  (call_mcp_tool E server_url tool_name arguments w).1 = Raise e ->
  isinstance_Exception e = true.
Proof.
  intros H. apply call_mcp_tool_raises in H.
  unfold isinstance_Exception. rewrite H. reflexivity.
Qed.

(** A turn with a server URL: the user message goes to the log, one tool
    call is made, and its outcome goes to the log. *)
Lemma chat_input_turn server_url provider model use_memory user_input w :
  user_input <> "" -> server_url <> "" ->
  let w1 := update_state
    (fun s => set_messages (messages s ++
       [{| role := user; content := JString user_input;
           timestamp := strftime E (clock w) "%I:%M %p"; is_error := None |}]) s)
    (tick w) in
  let '(tool_name, arguments) :=
    selected provider model use_memory user_input (session_id (state w)) in
  let call := call_mcp_tool E server_url tool_name arguments w1 in
  let w' := (chat_input E server_url provider model use_memory (Some user_input) w).2 in
  messages (state w') =
    messages (state w) ++
      [{| role := user; content := JString user_input;
          timestamp := strftime E (clock w) "%I:%M %p"; is_error := None |};
       reply E call.1 (strftime E (clock call.2) "%I:%M %p")] /\
  sent w' = sent w ++
    [tools_call_request server_url (time_ms E (S (clock w))) tool_name arguments].
Proof.
  intros Hu Hs. unfold chat_input, selected.
  rewrite (truthy_nonempty _ Hu), (truthy_nonempty _ Hs).
  destruct use_memory; unfold_ops; simp.
  all: match goal with
       | |- context [call_mcp_tool E ?u ?t ?a ?W] =>
           pose proof (call_mcp_tool_frame E u t a W) as Hf;
           pose proof (call_mcp_tool_caught u t a W) as Hc;
           destruct (call_mcp_tool E u t a W) as [r w2]
       end.
  all: simp_in Hf; destruct Hf as (Hm & _ & _ & _ & Hsent).
  all: destruct r as [res|e]; simp.
  all: try (rewrite (Hc e eq_refl); simp).
  all: try (destruct (response_text_of E res) as [text|e] eqn:Hr; simp;
            [| destruct (response_text_of_raises _ _ Hr) as (-> & _ & _); simp]).
  all: rewrite Hm, Hsent, <- app_assoc; split; reflexivity.
Qed.

End ChatTurn.

(** ** The connection test *)

Section ConnectionTest.
Context (E : env).


Lemma test_connection_server_error server_url w r kvs ekvs m :
  requests_post E (length (sent w)) (initialize_request server_url) = Responds r ->
  json r = Json (JDict kvs) ->
  dict_lookup "error" kvs = Some (JDict ekvs) ->
  dict_lookup "message" ekvs = Some m ->
  (test_connection E server_url w).1 =
    Ok (false, "Server error: " +:+ str (isprintable E) m).
Proof.
  intros H Hj He Hm. unfold test_connection, initialize_request in *.
  unfold_ops. simp. rewrite H. simp. rewrite Hj. simp. rewrite He. simp.
  rewrite Hm. reflexivity.
Qed.

Lemma test_connection_fails server_url w f :
  requests_post E (length (sent w)) (initialize_request server_url) = Fails f ->
  (test_connection E server_url w).1 = Ok (false, str_exn (exn_of_fault f)).
Proof.
  intros H. unfold test_connection, initialize_request in *.
  unfold_ops. simp. rewrite H. destruct f; reflexivity.
Qed.



End ConnectionTest.

(** ** Claims on the chat turn *)

Section ChatClaims.
Context (E : env).

(** C1.  A turn with a non-empty server URL sends one request, a
    [tools/call].  With memory on it names [conversation_with_memory] and
    carries the message, the current session id and the provider; with
    memory off it names [chat] and carries the message, the provider and
    the model, and no session id. *)
Theorem chat_input_tool_call server_url provider model use_memory user_input w :
  user_input <> "" -> server_url <> "" ->
  sent (chat_input E server_url provider model use_memory (Some user_input) w).2 =
  sent w ++
    [{| req_url := server_url;
        req_json :=
          JDict [("jsonrpc", JString "2.0");
                 ("id", JInt (time_ms E (S (clock w))));
                 ("method", JString "tools/call");
                 ("params",
                  JDict [("name", JString (if use_memory then "conversation_with_memory"
                                           else "chat"));
                         ("arguments",
                          if use_memory then
                            JDict [("message", JString user_input);
                                   ("sessionId", JString (session_id (state w)));
                                   ("provider", JString provider)]
                          else
                            JDict [("message", JString user_input);
                                   ("provider", JString provider);
                                   ("model", JString model)])])];
        req_headers := [("Content-Type", "application/json")];
        req_timeout := 30 |}].
Proof.
  intros Hu Hs.
  pose proof (chat_input_turn E server_url provider model use_memory user_input w Hu Hs)
    as H.
  unfold selected in H. destruct use_memory; destruct H as [_ H]; exact H.
Qed.

(** C3, as the code has it.  When the server answers a tool call with an
    error object that has a message, [call_mcp_tool] raises with the text
    ["Error: "] followed by that message, not the message alone, and the
    turn logs an assistant message in which the prefix stands twice. *)
Theorem chat_input_server_error server_url provider model use_memory user_input w
    r kvs ekvs m :
  user_input <> "" -> server_url <> "" ->
  (forall q, requests_post E (length (sent w)) q = Responds r) ->
  json r = Json (JDict kvs) ->
  dict_lookup "error" kvs = Some (JDict ekvs) ->
  dict_lookup "message" ekvs = Some (JString m) ->
  (forall tool_name arguments,
     (call_mcp_tool E server_url tool_name arguments w).1 =
       Raise (Exc Exception ("Error: " +:+ m))) /\
  exists t1 t2,
    messages (state (chat_input E server_url provider model use_memory
                       (Some user_input) w).2) =
    messages (state w) ++
      [{| role := user; content := JString user_input;
          timestamp := t1; is_error := None |};
       {| role := assistant;
          content := JString ("Error: Error: " +:+ m +:+ nl +:+ nl +:+
                              "Please check your server URL and API keys.");
          timestamp := t2; is_error := Some true |}].
Proof.
  intros Hu Hs Hpost Hj He Hm. split.
  - intros tool_name arguments.
    apply (call_mcp_tool_error E _ _ _ _ r kvs ekvs (JString m)); auto.
  - pose proof (chat_input_turn E server_url provider model use_memory user_input w Hu Hs)
      as H.
    destruct (selected _ _ _ _ _) as [tool_name arguments].
    destruct H as [H _]. rewrite H. do 2 eexists. do 3 f_equal.
    rewrite (call_mcp_tool_error E _ _ _ _ r kvs ekvs (JString m)); auto.
Qed.

(** C4.  When the transport times out during the tool call of a turn, the
    turn adds the user message and exactly one assistant message, marked
    as an error, whose text starts with
    ["Error: Request timed out. The server took too long to respond."]. *)
Theorem chat_input_timeout server_url provider model use_memory user_input w f :
  user_input <> "" -> server_url <> "" ->
  (forall q, requests_post E (length (sent w)) q = Fails f) ->
  isinstance_Timeout (exn_of_fault f) = true ->
  exists t1 t2,
    messages (state (chat_input E server_url provider model use_memory
                       (Some user_input) w).2) =
    messages (state w) ++
      [{| role := user; content := JString user_input;
          timestamp := t1; is_error := None |};
       {| role := assistant;
          content := JString
            ("Error: Request timed out. The server took too long to respond."
             +:+ nl +:+ nl +:+ "Please check your server URL and API keys.");
          timestamp := t2; is_error := Some true |}].
Proof.
  intros Hu Hs Hpost Ht.
  pose proof (chat_input_turn E server_url provider model use_memory user_input w Hu Hs)
    as H.
  destruct (selected _ _ _ _ _) as [tool_name arguments].
  destruct H as [H _]. rewrite H. do 2 eexists. do 3 f_equal.
  rewrite (call_mcp_tool_fails E _ _ _ _ f); [| apply Hpost].
  rewrite Ht. reflexivity.
Qed.

(** C5.  A turn submitted while the server URL is empty changes nothing
    but the page, on which it puts the validation message: no message is
    logged and no request is made. *)
Theorem chat_input_no_server_url provider model use_memory user_input w :
  user_input <> "" ->
  chat_input E "" provider model use_memory (Some user_input) w =
    (Ok tt,
     {| state := state w; sent := sent w; stdout := stdout w;
        page := page w ++
          [st_error "⚠️ Please configure your MCP Server URL in the sidebar first!"];
        clock := clock w |}).
Proof.
  intros Hu. unfold chat_input. rewrite (truthy_nonempty _ Hu). reflexivity.
Qed.

End ChatClaims.

(** ** Sessions *)

Section Sessions.
Context (E : env).

Lemma session_name_inj : Inj (=) (=) session_name.
Proof.
  intros a b H. unfold session_name in H. simpl in H.
  injection H as H. exact (pretty_Z_inj _ _ H).
Qed.

(** C6, as the code has it.  A new session empties the message log and
    names the session after the clock, in milliseconds; the name differs
    from the one before whenever that one was made at another reading of
    the clock. *)
Theorem new_session_button_resets w :
  let w' := (new_session_button E w).2 in
  messages (state w') = [] /\
  session_id (state w') = session_name (time_ms E (clock w)) /\
  (forall ms, session_id (state w) = session_name ms ->
              ms <> time_ms E (clock w) ->
              session_id (state w') <> session_id (state w)).
Proof.
  unfold new_session_button. unfold_ops. simp.
  split; [reflexivity |]. split; [reflexivity |].
  intros ms Hold Hms Heq. rewrite Hold in Heq.
  apply session_name_inj in Heq. congruence.
Qed.

End Sessions.

(** ** The debug log *)

Section DebugLog.
Context (E : env).

Lemma slice_last_suffix {A} (n : nat) (l : list A) : slice_last n l `suffix_of` l.
Proof. apply suffix_drop. Qed.

Lemma slice_last_length {A} (n : nat) (l : list A) :
  length (slice_last n l) = Nat.min n (length l).
Proof. unfold slice_last. rewrite length_drop. lia. Qed.

Lemma for_each_cons {A} (x : A) (l : list A) (body : A -> M unit) w :
  for_each (x :: l) body w =
    match body x w with
    | (Ok _, w') => for_each l body w'
    | (Raise e, w') => (Raise e, w')
    end.
Proof. reflexivity. Qed.

(** A loop of [st.text] puts its lines on the page in order. *)
Lemma for_each_show {A} (l : list A) (line : A -> string) w :
  for_each l (fun x => show (st_text (line x))) w =
    (Ok tt,
     {| state := state w; sent := sent w; stdout := stdout w;
        page := page w ++ map (fun x => st_text (line x)) l; clock := clock w |}).
Proof.
  revert w. induction l as [|x l IH]; intros w.
  - simpl. rewrite app_nil_r. destruct w; reflexivity.
  - rewrite for_each_cons. unfold show at 1. rewrite IH.
    simpl. rewrite <- app_assoc. reflexivity.
Qed.

Lemma add_debug_log_run message log_type w :
  add_debug_log E message log_type w =
    (Ok tt,
     {| state :=
          set_debug_logs
            (debug_logs (state w) ++
               [{| log_time := strftime E (clock w) "%H:%M:%S";
                   log_type := log_type; log_message := message |}])
            (state w);
        sent := sent w;
        stdout := stdout w ++ ["[" +:+ upper log_type +:+ "] " +:+ message];
        page := page w;
        clock := S (clock w) |}).
Proof. reflexivity. Qed.

(** A run of appends extends the store in order, and only the store, the
    output and the clock move. *)
Lemma for_each_add_debug_log (entries : list (string * string)) w :
  let r := for_each entries (fun e => add_debug_log E e.1 e.2) w in
  r.1 = Ok tt /\
  page r.2 = page w /\
  map log_message (debug_logs (state r.2)) =
    map log_message (debug_logs (state w)) ++ map fst entries /\
  map log_type (debug_logs (state r.2)) =
    map log_type (debug_logs (state w)) ++ map snd entries.
Proof.
  revert w. induction entries as [|[m t] entries IH]; intros w.
  - simpl. rewrite !app_nil_r. auto.
  - cbv zeta. rewrite for_each_cons. cbv beta. rewrite add_debug_log_run.
    cbv beta iota.
    match goal with |- context [for_each entries ?f ?W] =>
      destruct (IH W) as (H1 & H2 & H3 & H4) end.
    rewrite H1, H2, H3, H4. simpl. rewrite !map_app, <- !app_assoc. auto.
Qed.

(** C8.  After any run of appends to the debug log, what the debug
    section shows is a suffix of the store, of at most 20 entries, in the
    order of the store: the last 20 when the section is on and the log is
    not being cleared, nothing otherwise. *)
Theorem debug_logs_section_last_20 (entries : list (string * string))
    (show_debug clear_clicked : bool) w :
  let w1 := (for_each entries (fun e => add_debug_log E e.1 e.2) w).2 in
  let w2 := (debug_logs_section show_debug clear_clicked w1).2 in
  let logs := debug_logs (state w1) in
  let shown := if show_debug && negb clear_clicked then slice_last 20 logs else [] in
  map log_message logs = map log_message (debug_logs (state w)) ++ map fst entries /\
  (exists header,
     (header = [] \/ header = [st_divider; st_subheader "🐛 Debug Logs"]) /\
     page w2 = page w1 ++ header ++ map (fun log => st_text (log_line log)) shown) /\
  shown `suffix_of` logs /\
  (length shown <= 20)%nat.
Proof.
  intros w1 w2 logs shown.
  destruct (for_each_add_debug_log entries w) as (_ & _ & Hm & _).
  split; [exact Hm |]. split.
  - subst w2 shown logs. generalize w1. clear. intros w.
    unfold debug_logs_section. unfold_ops. simp.
    destruct show_debug; simp.
    + destruct (Z.ltb_spec 0 (Z.of_nat (length (debug_logs (state w))))) as [Hlt|Hge].
      * destruct clear_clicked; simp.
        -- eexists. split; [right; reflexivity |]. rewrite app_nil_r, <- app_assoc.
           reflexivity.
        -- match goal with |- context [for_each ?l ?f ?W] =>
             change (for_each l f W)
               with (for_each l (fun log => show (st_text (log_line log))) W)
           end.
           rewrite for_each_show. simp.
           eexists. split; [right; reflexivity |]. rewrite <- !app_assoc. reflexivity.
      * assert (debug_logs (state w) = []) as ->
          by (destruct (debug_logs (state w)); [reflexivity | simpl in Hge; lia]).
        exists []. split; [auto |]. destruct clear_clicked; rewrite app_nil_r; reflexivity.
    + exists []. split; [auto |]. rewrite app_nil_r. reflexivity.
  - subst shown. destruct (show_debug && negb clear_clicked).
    + split; [apply slice_last_suffix |]. rewrite slice_last_length. lia.
    + split; [apply suffix_nil | simpl; lia].
Qed.

End DebugLog.

(** ** Claims on the connection test and the debug log of an attempt *)

Section ConnectionClaims.
Context (E : env).



(** C7.  The connection test never raises: it returns a flag and a text
    whatever the server or the transport does.  An error object with the
    message ["bad key"] gives false with ["Server error: bad key"]; a
    failure of the transport gives false with the text of the failure. *)
Theorem test_connection_never_raises server_url w :
  (exists ok message, (test_connection E server_url w).1 = Ok (ok, message)) /\
  (forall r,
     requests_post E (length (sent w)) (initialize_request server_url) = Responds r ->
     json r = Json (JDict [("error", JDict [("message", JString "bad key")])]) ->
     (test_connection E server_url w).1 = Ok (false, "Server error: bad key")) /\
  (forall f,
     requests_post E (length (sent w)) (initialize_request server_url) = Fails f ->
     (test_connection E server_url w).1 = Ok (false, str_exn (exn_of_fault f))).
Proof.
  split; [| split].
  - unfold test_connection. run; eexists _, _; reflexivity.
  - intros r H Hj.
    exact (test_connection_server_error E server_url w r _ _ (JString "bad key")
             H Hj eq_refl eq_refl).
  - intros f H. apply test_connection_fails, H.
Qed.



End ConnectionClaims.

(** ** The claims at concrete inputs *)

(** C1 on the turn "hi" of a fresh session, memory on, provider openai. *)
Lemma chat_input_tool_call_hi :
  sent (chat_input Demo.fuse_server Demo.url "openai" "gpt-3.5-turbo" true (Some "hi") (first_run Demo.fuse_server)).2 =
    [{| req_url := Demo.url;
        req_json :=
          JDict [("jsonrpc", JString "2.0");
                 ("id", JInt 1700000000002);
                 ("method", JString "tools/call");
                 ("params",
                  JDict [("name", JString "conversation_with_memory");
                         ("arguments",
                          JDict [("message", JString "hi");
                                 ("sessionId", JString "session-1700000000000");
                                 ("provider", JString "openai")])])];
        req_headers := [("Content-Type", "application/json")];
        req_timeout := 30 |}].
Proof.
  exact (chat_input_tool_call Demo.fuse_server Demo.url "openai" "gpt-3.5-turbo" true "hi" (first_run Demo.fuse_server)
           ltac:(discriminate) ltac:(discriminate)).
Defined.


(** C2 also fails on the plain answer of the server Fuse: the text is not
    the name alone. *)
Example test_connection_fuse :
  (test_connection (Demo.fuse_server) Demo.url
     (first_run (Demo.fuse_server))).1
  = Ok (true, "Connected to Fuse").
Proof. vm_compute. reflexivity. Qed.


(** C3 on the server error "bad key": the text raised carries the prefix,
    and the message logged carries it twice. *)
Lemma chat_input_server_error_bad_key :
  (forall tool_name arguments,
     (call_mcp_tool Demo.bad_key_server Demo.url tool_name arguments (first_run Demo.bad_key_server)).1 =
       Raise (Exc Exception "Error: bad key")) /\
  exists t1 t2,
    messages (state (chat_input Demo.bad_key_server Demo.url "openai" "gpt-3.5-turbo" true
                       (Some "hi") (first_run Demo.bad_key_server)).2) =
      [{| role := user; content := JString "hi"; timestamp := t1; is_error := None |};
       {| role := assistant;
          content := JString ("Error: Error: bad key" +:+ nl +:+ nl +:+
                              "Please check your server URL and API keys.");
          timestamp := t2; is_error := Some true |}].
Proof.
  exact (chat_input_server_error Demo.bad_key_server Demo.url "openai" "gpt-3.5-turbo" true "hi" (first_run Demo.bad_key_server)
           {| status_code := 200; text := json_dumps Demo.bad_key;
              json := Json Demo.bad_key |}
           [("error", JDict [("message", JString "bad key")])]
           [("message", JString "bad key")] "bad key"
           ltac:(discriminate) ltac:(discriminate) (fun _ => eq_refl)
           eq_refl eq_refl eq_refl).
Defined.

(** C4 on a read timeout in the first turn of a session. *)
Lemma chat_input_timeout_hi :
  exists t1 t2,
    messages (state (chat_input Demo.silent_server Demo.url "openai" "gpt-3.5-turbo" true
                       (Some "hi") (first_run Demo.silent_server)).2) =
      [{| role := user; content := JString "hi"; timestamp := t1; is_error := None |};
       {| role := assistant;
          content := JString
            ("Error: Request timed out. The server took too long to respond."
             +:+ nl +:+ nl +:+ "Please check your server URL and API keys.");
          timestamp := t2; is_error := Some true |}].
Proof.
  exact (chat_input_timeout Demo.silent_server Demo.url "openai" "gpt-3.5-turbo" true "hi" (first_run Demo.silent_server)
           Demo.read_timeout
           ltac:(discriminate) ltac:(discriminate) (fun _ => eq_refl) eq_refl).
Defined.

(** C5 on the turn "hi" with no server URL. *)
Lemma chat_input_no_server_url_hi :
  chat_input Demo.fuse_server "" "openai" "gpt-3.5-turbo" true (Some "hi") (first_run Demo.fuse_server) =
    (Ok tt,
     {| state := state (first_run Demo.fuse_server); sent := []; stdout := [];
        page := [st_error "⚠️ Please configure your MCP Server URL in the sidebar first!"];
        clock := 1 |}).
Proof.
  exact (chat_input_no_server_url Demo.fuse_server "openai" "gpt-3.5-turbo" true "hi" (first_run Demo.fuse_server)
           ltac:(discriminate)).
Defined.

(** C6 fails when the clock shows at the reset what it showed when the
    session was named: the new session has the name of the old one. *)
Lemma new_session_button_same_id :
  session_id
    (state (new_session_button (Demo.frozen_server)
              (first_run (Demo.frozen_server))).2)
  = session_id
      (state (first_run (Demo.frozen_server))).
Proof. vm_compute. reflexivity. Qed.

(** C6, as the code has it, on a clock that advances. *)
Lemma new_session_button_resets_advancing :
  messages (state (new_session_button Demo.fuse_server
                     (first_run Demo.fuse_server)).2) = [] /\
  session_id (state (new_session_button Demo.fuse_server
                       (first_run Demo.fuse_server)).2)
    = session_name 1700000000001 /\
  session_id (state (new_session_button Demo.fuse_server
                       (first_run Demo.fuse_server)).2)
    <> session_id (state (first_run Demo.fuse_server)).
Proof.
  destruct (new_session_button_resets Demo.fuse_server (first_run Demo.fuse_server))
    as (Hm & Hi & Hd).
  split; [exact Hm |]. split; [exact Hi |].
  apply (Hd 1700000000000); [reflexivity | discriminate].
Defined.

(** C7 on the error "bad key" and on a read timeout. *)
Lemma test_connection_never_raises_demo :
  (test_connection (Demo.bad_key_server) Demo.url
     (first_run (Demo.bad_key_server))).1
    = Ok (false, "Server error: bad key") /\
  (test_connection (Demo.silent_server) Demo.url
     (first_run (Demo.silent_server))).1
    = Ok (false, "Read timed out. (read timeout=30)").
Proof.
  split.
  - apply (test_connection_never_raises (Demo.bad_key_server)
             Demo.url (first_run (Demo.bad_key_server)))
      with (r := {| status_code := 200; text := json_dumps Demo.bad_key;
                    json := Json Demo.bad_key |}); reflexivity.
  - apply (test_connection_never_raises (Demo.silent_server)
             Demo.url (first_run (Demo.silent_server)))
      with (f := Demo.read_timeout); reflexivity.
Defined.




(** ** More on the debug log *)

Import Page.

Lemma logs_extended_refl w : logs_extended w w.
Proof. exists []. rewrite !app_nil_r. auto. Qed.

Lemma logs_extended_trans w1 w2 w3 :
  logs_extended w1 w2 -> logs_extended w2 w3 -> logs_extended w1 w3.
Proof.
  intros (n1 & H1 & H1' & F1) (n2 & H2 & H2' & F2). exists (n1 ++ n2).
  rewrite H2, H1, H2', H1', map_app, <- !app_assoc.
  split; [reflexivity |]. split; [reflexivity |]. apply Forall_app; auto.
Qed.

(** At a leaf of a run: the entries added are read off the two worlds. *)
Ltac read_logs :=
  unfold logs_extended; unpark; eexists;
  rewrite <- ?app_assoc; simpl;
  (split; [reflexivity |]); (split; [reflexivity |]);
  repeat constructor.

Section Logs.
Context (E : env).

Lemma call_mcp_tool_logs server_url tool_name arguments w :
  logs_extended w (call_mcp_tool E server_url tool_name arguments w).2.
Proof. unfold call_mcp_tool. run; read_logs. Qed.

Lemma test_connection_logs server_url w :
  logs_extended w (test_connection E server_url w).2.
Proof. unfold test_connection. run; read_logs. Qed.

(** The connection test touches the debug log, the output and the clock;
    of the rest it only extends the list of requests, by one. *)
Lemma test_connection_frame server_url w :
  let w' := (test_connection E server_url w).2 in
  messages (state w') = messages (state w) /\
  session_id (state w') = session_id (state w) /\
  connection_status (state w') = connection_status (state w) /\
  page w' = page w /\
  sent w' = sent w ++ [initialize_request server_url].
Proof.
  unfold test_connection, initialize_request. run; unpark; repeat split; reflexivity.
Qed.

End Logs.

(** ** More on the chat turn *)

Section TurnFrame.
Context (E : env).

(** A turn with a server URL ends in a rerun and leaves the session id,
    the connection status and the page as they were. *)
Lemma chat_input_turn_frame server_url provider model use_memory user_input w :
  user_input <> "" -> server_url <> "" ->
  let r := chat_input E server_url provider model use_memory (Some user_input) w in
  r.1 = Raise (Exc RerunException "") /\
  session_id (state r.2) = session_id (state w) /\
  connection_status (state r.2) = connection_status (state w) /\
  page r.2 = page w /\
  logs_extended w r.2.
Proof.
  intros Hu Hs. unfold chat_input.
  rewrite (truthy_nonempty _ Hu), (truthy_nonempty _ Hs).
  destruct use_memory; unfold_ops; simp.
  all: match goal with
       | |- context [call_mcp_tool E ?u ?t ?a ?W] =>
           pose proof (call_mcp_tool_frame E u t a W) as Hf;
           pose proof (call_mcp_tool_logs E u t a W) as Hl;
           pose proof (call_mcp_tool_caught E u t a W) as Hc;
           destruct (call_mcp_tool E u t a W) as [r w2]
       end.
  all: simp_in Hf; destruct Hf as (_ & Hi & Hcs & Hp & _).
  all: assert (Hl' : logs_extended w w2)
         by (destruct Hl as (new & H1 & H2 & H3); exists new; auto).
  all: clear Hl; destruct Hl' as (new & H1 & H2 & H3).
  all: destruct r as [res|e]; simp.
  all: try (rewrite (Hc e eq_refl); simp).
  all: try (destruct (response_text_of E res) as [text|e] eqn:Hr; simp;
            [| destruct (response_text_of_raises E _ _ Hr) as (-> & _ & _); simp]).
  all: repeat split; auto; exists new; auto.
Qed.

End TurnFrame.

(** ** Further properties of the tool call *)

Section ToolCallProperties.
Context (E : env).

(** X1.  A tool call makes exactly one request, whatever comes of it: a
    POST of the [tools/call] body to the server URL with the JSON header
    and a timeout of 30 seconds.  It leaves the messages, the session id,
    the connection status and the page alone. *)
Theorem call_mcp_tool_one_request server_url tool_name arguments w :
  let w' := (call_mcp_tool E server_url tool_name arguments w).2 in
  sent w' = sent w ++
    [{| req_url := server_url;
        req_json :=
          JDict [("jsonrpc", JString "2.0");
                 ("id", JInt (time_ms E (clock w)));
                 ("method", JString "tools/call");
                 ("params", JDict [("name", JString tool_name);
                                   ("arguments", arguments)])];
        req_headers := [("Content-Type", "application/json")];
        req_timeout := 30 |}] /\
  messages (state w') = messages (state w) /\
  session_id (state w') = session_id (state w) /\
  connection_status (state w') = connection_status (state w) /\
  page w' = page w.
Proof.
  destruct (call_mcp_tool_frame E server_url tool_name arguments w)
    as (H1 & H2 & H3 & H4 & H5).
  repeat split; assumption.
Qed.

(** X2.  A failure of the transport leaves a tool call as an [Exception]
    whose text depends on the kind of failure only: the timeout text for a
    read timeout and for a connect timeout (which is a connection error as
    well), the connection text for another connection error, and
    ["Error: "] with the original text for anything else. *)
Theorem call_mcp_tool_fault_text server_url tool_name arguments w f :
  requests_post E (length (sent w))
    (tools_call_request server_url (time_ms E (clock w)) tool_name arguments) = Fails f ->
  (call_mcp_tool E server_url tool_name arguments w).1 =
    Raise (Exc Exception
      match f with
      | FaultReadTimeout _ | FaultConnectTimeout _ =>
          "Request timed out. The server took too long to respond."
      | FaultConnectionError _ => "Connection failed. Check your server URL."
      | FaultOther msg => "Error: " +:+ msg
      end).
Proof.
  intros H. rewrite (call_mcp_tool_fails E _ _ _ _ f H). destruct f; reflexivity.
Qed.

(** X3.  A body that is no JSON makes the tool call raise ["Error: "]
    with the text of the decoding error. *)
Theorem call_mcp_tool_not_json server_url tool_name arguments w r msg :
  requests_post E (length (sent w))
    (tools_call_request server_url (time_ms E (clock w)) tool_name arguments)
    = Responds r ->
  json r = NotJson msg ->
  (call_mcp_tool E server_url tool_name arguments w).1 =
    Raise (Exc Exception ("Error: " +:+ msg)).
Proof.
  intros H Hj. unfold call_mcp_tool, tools_call_request in *. unfold_ops. simp.
  rewrite H. simp. rewrite Hj. reflexivity.
Qed.

(** X4.  An object with neither [error] nor [result] makes the tool call
    raise on the missing key: the text is ["Error: 'result'"]. *)
Theorem call_mcp_tool_missing_result server_url tool_name arguments w r kvs :
  requests_post E (length (sent w))
    (tools_call_request server_url (time_ms E (clock w)) tool_name arguments)
    = Responds r ->
  json r = Json (JDict kvs) ->
  dict_lookup "error" kvs = None ->
  dict_lookup "result" kvs = None ->
  (call_mcp_tool E server_url tool_name arguments w).1 =
    Raise (Exc Exception "Error: 'result'").
Proof.
  intros H Hj He Hr. unfold call_mcp_tool, tools_call_request in *. unfold_ops. simp.
  rewrite H. simp. rewrite Hj. simp. rewrite He. simp. rewrite Hr. reflexivity.
Qed.

(** X5.  An error object without a message is reported by its [str]: the
    tool call raises ["Error: "] with the Python text of the object. *)
Theorem call_mcp_tool_error_without_message server_url tool_name arguments w r
    kvs ekvs :
  requests_post E (length (sent w))
    (tools_call_request server_url (time_ms E (clock w)) tool_name arguments)
    = Responds r ->
  json r = Json (JDict kvs) ->
  dict_lookup "error" kvs = Some (JDict ekvs) ->
  dict_lookup "message" ekvs = None ->
  (call_mcp_tool E server_url tool_name arguments w).1 =
    Raise (Exc Exception ("Error: " +:+ repr (isprintable E) (JDict ekvs))).
Proof.
  intros H Hj He Hm. unfold call_mcp_tool, tools_call_request in *. unfold_ops. simp.
  rewrite H. simp. rewrite Hj. simp. rewrite He. simp. rewrite Hm. reflexivity.
Qed.

(** X6.  An [error] that is no object has no [.get]: the tool call raises
    ["Error: "] with the text of the attribute error, which names the type
    of the value. *)
Theorem call_mcp_tool_error_not_object server_url tool_name arguments w r kvs err :
  requests_post E (length (sent w))
    (tools_call_request server_url (time_ms E (clock w)) tool_name arguments)
    = Responds r ->
  json r = Json (JDict kvs) ->
  dict_lookup "error" kvs = Some err ->
  (forall ekvs, err <> JDict ekvs) ->
  (call_mcp_tool E server_url tool_name arguments w).1 =
    Raise (Exc Exception
             ("Error: '" +:+ type_name err +:+ "' object has no attribute 'get'")).
Proof.
  intros H Hj He Hn. unfold call_mcp_tool, tools_call_request in *. unfold_ops. simp.
  rewrite H. simp. rewrite Hj. simp. rewrite He. simp.
  destruct err; try reflexivity. destruct (Hn kvs0). reflexivity.
Qed.

End ToolCallProperties.

(** ** Further properties of the chat turn *)

Section TurnProperties.
Context (E : env).

(** X7.  When the server cannot be reached during the tool call of a turn
    (a connection error that is no timeout), the turn adds the user
    message and one assistant message, marked as an error, with the text
    ["Error: Connection failed. Check your server URL."] and the hint. *)
Theorem chat_input_connection_error server_url provider model use_memory user_input w
    msg :
  user_input <> "" -> server_url <> "" ->
  (forall q, requests_post E (length (sent w)) q = Fails (FaultConnectionError msg)) ->
  exists t1 t2,
    messages (state (chat_input E server_url provider model use_memory
                       (Some user_input) w).2) =
    messages (state w) ++
      [{| role := user; content := JString user_input;
          timestamp := t1; is_error := None |};
       {| role := assistant;
          content := JString
            ("Error: Connection failed. Check your server URL."
             +:+ nl +:+ nl +:+ "Please check your server URL and API keys.");
          timestamp := t2; is_error := Some true |}].
Proof.
  intros Hu Hs Hpost.
  pose proof (chat_input_turn E server_url provider model use_memory user_input w Hu Hs)
    as H.
  destruct (selected _ _ _ _ _) as [tool_name arguments].
  destruct H as [H _]. rewrite H. do 2 eexists. do 3 f_equal.
  rewrite (call_mcp_tool_fails E _ _ _ _ (FaultConnectionError msg)); [| apply Hpost].
  reflexivity.
Qed.

(** X8.  When the answer to the tool call of a turn is an object with a
    [result] and no [error], and the result holds a list [content] whose
    first item is an object with a [text], the turn adds the user message
    and an assistant message with that text, not marked as an error. *)
Theorem chat_input_success server_url provider model use_memory user_input w
    r kvs rkvs ckvs rest text :
  user_input <> "" -> server_url <> "" ->
  (forall q, requests_post E (length (sent w)) q = Responds r) ->
  json r = Json (JDict kvs) ->
  dict_lookup "error" kvs = None ->
  dict_lookup "result" kvs = Some (JDict rkvs) ->
  dict_lookup "content" rkvs = Some (JList (JDict ckvs :: rest)) ->
  dict_lookup "text" ckvs = Some text ->
  exists t1 t2,
    messages (state (chat_input E server_url provider model use_memory
                       (Some user_input) w).2) =
    messages (state w) ++
      [{| role := user; content := JString user_input;
          timestamp := t1; is_error := None |};
       {| role := assistant; content := text;
          timestamp := t2; is_error := Some false |}].
Proof.
  intros Hu Hs Hpost Hj He Hr Hc Ht.
  pose proof (chat_input_turn E server_url provider model use_memory user_input w Hu Hs)
    as H.
  destruct (selected _ _ _ _ _) as [tool_name arguments].
  destruct H as [H _]. rewrite H. do 2 eexists. do 3 f_equal.
  rewrite (call_mcp_tool_result E _ _ _ _ r kvs (JDict rkvs)); auto.
  unfold reply, response_text_of. simpl. rewrite Hc. simpl. rewrite Ht. reflexivity.
Qed.

(** X9.  When the tool call of a turn returns a result from which
    [result['content'][0]['text']] cannot be read, the turn answers with
    an assistant message marked as an error that carries the text of that
    error: the turn does not fail. *)
Theorem chat_input_malformed_result server_url provider model use_memory user_input w
    r kvs res e :
  user_input <> "" -> server_url <> "" ->
  (forall q, requests_post E (length (sent w)) q = Responds r) ->
  json r = Json (JDict kvs) ->
  dict_lookup "error" kvs = None ->
  dict_lookup "result" kvs = Some res ->
  response_text_of E res = Raise e ->
  (chat_input E server_url provider model use_memory (Some user_input) w).1 =
    Raise (Exc RerunException "") /\
  exists t1 t2,
    messages (state (chat_input E server_url provider model use_memory
                       (Some user_input) w).2) =
    messages (state w) ++
      [{| role := user; content := JString user_input;
          timestamp := t1; is_error := None |};
       {| role := assistant;
          content := JString ("Error: " +:+ str_exn e +:+ nl +:+ nl +:+
                              "Please check your server URL and API keys.");
          timestamp := t2; is_error := Some true |}].
Proof.
  intros Hu Hs Hpost Hj He Hr Ht. split.
  - apply (chat_input_turn_frame E server_url provider model use_memory user_input w Hu Hs).
  - pose proof (chat_input_turn E server_url provider model use_memory user_input w Hu Hs)
      as H.
    destruct (selected _ _ _ _ _) as [tool_name arguments].
    destruct H as [H _]. rewrite H. do 2 eexists. do 3 f_equal.
    rewrite (call_mcp_tool_result E _ _ _ _ r kvs res); auto.
    unfold reply. rewrite Ht. reflexivity.
Qed.

(** X10.  Whatever the server or the transport does, a turn with an input
    and a server URL adds exactly two messages, the user's with the input
    as its content and then one from the assistant, makes exactly one
    request, and ends in [st.rerun()]: no error of the call leaves the
    turn. *)
Theorem chat_input_always_replies server_url provider model use_memory user_input w :
  user_input <> "" -> server_url <> "" ->
  let r := chat_input E server_url provider model use_memory (Some user_input) w in
  r.1 = Raise (Exc RerunException "") /\
  (exists u a,
     messages (state r.2) = messages (state w) ++ [u; a] /\
     user_entry u = true /\ content u = JString user_input /\
     assistant_entry a = true) /\
  length (sent r.2) = S (length (sent w)).
Proof.
  intros Hu Hs r.
  pose proof (chat_input_turn_frame E server_url provider model use_memory user_input w
                Hu Hs) as (Hr & _).
  pose proof (chat_input_turn E server_url provider model use_memory user_input w Hu Hs)
    as H.
  destruct (selected _ _ _ _ _) as [tool_name arguments].
  destruct H as [Hm Hsent]. subst r. split; [exact Hr |]. split.
  - do 2 eexists. split; [exact Hm |]. repeat split.
    unfold reply. repeat case_match; reflexivity.
  - rewrite Hsent, length_app. simpl. lia.
Qed.

(** X11.  When nothing was submitted, or an empty text, the chat block
    does nothing at all. *)
Theorem chat_input_nothing_submitted server_url provider model use_memory w :
  chat_input E server_url provider model use_memory None w = (Ok tt, w) /\
  chat_input E server_url provider model use_memory (Some "") w = (Ok tt, w).
Proof. split; reflexivity. Qed.

End TurnProperties.

(** ** Further properties of the connection test *)

Section ConnectionProperties.
Context (E : env).

(** What the Test Connection button does with a server URL. *)
Lemma test_connection_button_run server_url w :
  server_url <> "" ->
  let r := test_connection_button E server_url w in
  exists ok message,
    (test_connection E server_url w).1 = Ok (ok, message) /\
    r.1 = Ok tt /\
    connection_status (state r.2) = (if ok then status_connected else status_error) /\
    page r.2 = page w ++ [if ok then st_success message else st_error message] /\
    sent r.2 = sent w ++ [initialize_request server_url] /\
    messages (state r.2) = messages (state w) /\
    session_id (state r.2) = session_id (state w) /\
    logs_extended w r.2.
Proof.
  intros Hs r. subst r. unfold test_connection_button.
  rewrite (truthy_nonempty _ Hs). unfold_ops. simp.
  pose proof (test_connection_frame E server_url w) as Hf.
  pose proof (test_connection_logs E server_url w) as Hl.
  assert (Ht : exists ok message, (test_connection E server_url w).1 = Ok (ok, message)).
  { unfold test_connection. run; eexists _, _; reflexivity. }
  destruct Ht as (ok & message & Ht). exists ok, message.
  destruct (test_connection E server_url w) as [t w']. simpl in Ht. subst t.
  simp_in Hf. destruct Hf as (Hm & Hi & _ & Hp & Hsent).
  destruct Hl as (new & L1 & L2 & L3).
  destruct ok; simp; rewrite Hp, Hsent, Hm, Hi; repeat split; try reflexivity.
  all: exists new; auto.
Qed.

(** X12.  A connection test makes exactly one request, whatever comes of
    it: a POST of the [initialize] body, with id 1 and empty params, to the
    server URL with the JSON header and a timeout of 10 seconds.  By itself
    it leaves the messages, the session id, the connection status and the
    page alone. *)
Theorem test_connection_one_request server_url w :
  let w' := (test_connection E server_url w).2 in
  sent w' = sent w ++
    [{| req_url := server_url;
        req_json :=
          JDict [("jsonrpc", JString "2.0");
                 ("id", JInt 1);
                 ("method", JString "initialize");
                 ("params", JDict [])];
        req_headers := [("Content-Type", "application/json")];
        req_timeout := 10 |}] /\
  messages (state w') = messages (state w) /\
  session_id (state w') = session_id (state w) /\
  connection_status (state w') = connection_status (state w) /\
  page w' = page w.
Proof.
  destruct (test_connection_frame E server_url w) as (H1 & H2 & H3 & H4 & H5).
  repeat split; assumption.
Qed.

(** X13.  The connection test reports success only on an answer whose
    body is JSON in which ['error' in data] is false and ['result' in data]
    is true, and then with a text that starts with ["Connected to "]: never
    on a failure of the transport, on a body that is no JSON, or on an
    error. *)
Theorem test_connection_success_only_if server_url w message :
  (test_connection E server_url w).1 = Ok (true, message) ->
  exists r data name,
    requests_post E (length (sent w)) (initialize_request server_url) = Responds r /\
    json r = Json data /\
    contains "error" data = Ok false /\
    contains "result" data = Ok true /\
    message = "Connected to " +:+ name.
Proof.
  unfold test_connection, initialize_request.
  run; intros [= <-]; do 3 eexists; repeat split; eauto.
Qed.

(** X14.  An answer that is an object with neither [error] nor [result]
    makes the connection test return false with
    ["Unexpected response format"]. *)
Theorem test_connection_unexpected_format server_url w r kvs :
  requests_post E (length (sent w)) (initialize_request server_url) = Responds r ->
  json r = Json (JDict kvs) ->
  dict_lookup "error" kvs = None ->
  dict_lookup "result" kvs = None ->
  (test_connection E server_url w).1 = Ok (false, "Unexpected response format").
Proof.
  intros H Hj He Hr. unfold test_connection, initialize_request in *. unfold_ops. simp.
  rewrite H. simp. rewrite Hj. simp. rewrite He. simp. rewrite Hr. reflexivity.
Qed.

(** X15.  An error object without a message makes the connection test
    return false with ["Server error: Unknown error"]. *)
Theorem test_connection_unknown_error server_url w r kvs ekvs :
  requests_post E (length (sent w)) (initialize_request server_url) = Responds r ->
  json r = Json (JDict kvs) ->
  dict_lookup "error" kvs = Some (JDict ekvs) ->
  dict_lookup "message" ekvs = None ->
  (test_connection E server_url w).1 = Ok (false, "Server error: Unknown error").
Proof.
  intros H Hj He Hm. unfold test_connection, initialize_request in *. unfold_ops. simp.
  rewrite H. simp. rewrite Hj. simp. rewrite He. simp. rewrite Hm. reflexivity.
Qed.

(** X16.  A body that is no JSON makes the connection test return false
    with the text of the decoding error, which it also writes to the debug
    log as a failed connection. *)
Theorem test_connection_not_json server_url w r msg :
  requests_post E (length (sent w)) (initialize_request server_url) = Responds r ->
  json r = NotJson msg ->
  (test_connection E server_url w).1 = Ok (false, msg) /\
  map log_message (debug_logs (state (test_connection E server_url w).2)) =
    map log_message (debug_logs (state w)) ++
      ["Testing connection to: " +:+ server_url;
       "Response status: " +:+ pretty (status_code r);
       "Connection failed: " +:+ msg].
Proof.
  intros H Hj. unfold test_connection, initialize_request in *. unfold_ops. simp.
  rewrite H. simp. rewrite Hj. simp. split; [reflexivity |].
  rewrite !map_app, <- !app_assoc. reflexivity.
Qed.

(** X17.  An error in the answer wins over a result: when the object has
    an error object with a message, the tool call raises and the
    connection test returns false, whatever [result] it has besides. *)
Theorem error_wins_over_result server_url tool_name arguments w r kvs ekvs m res :
  (forall q, requests_post E (length (sent w)) q = Responds r) ->
  json r = Json (JDict kvs) ->
  dict_lookup "error" kvs = Some (JDict ekvs) ->
  dict_lookup "message" ekvs = Some m ->
  dict_lookup "result" kvs = Some res ->
  (call_mcp_tool E server_url tool_name arguments w).1 =
    Raise (Exc Exception ("Error: " +:+ str (isprintable E) m)) /\
  (test_connection E server_url w).1 =
    Ok (false, "Server error: " +:+ str (isprintable E) m).
Proof.
  intros H Hj He Hm _. split.
  - apply (call_mcp_tool_error E _ _ _ _ r kvs ekvs m); auto.
  - apply (test_connection_server_error E _ _ r kvs ekvs m); auto.
Qed.

(** X18.  The Test Connection button with an empty server URL only warns:
    no request is made and the session state, the connection status with
    it, stays as it was. *)
Theorem test_connection_button_no_url w :
  test_connection_button E "" w =
    (Ok tt,
     {| state := state w; sent := sent w; stdout := stdout w;
        page := page w ++ [st_warning "Please enter a server URL first"];
        clock := clock w |}).
Proof. reflexivity. Qed.

(** X19.  The Test Connection button with a server URL never raises and
    always settles the status: [connected] when the test returned true,
    [error] when it returned false, with the text of the test shown as a
    success or as an error.  It makes one request and leaves the messages
    and the session id alone. *)
Theorem test_connection_button_settles server_url w :
  server_url <> "" ->
  let r := test_connection_button E server_url w in
  exists ok message,
    (test_connection E server_url w).1 = Ok (ok, message) /\
    r.1 = Ok tt /\
    connection_status (state r.2) = (if ok then status_connected else status_error) /\
    page r.2 = page w ++ [if ok then st_success message else st_error message] /\
    sent r.2 = sent w ++ [initialize_request server_url] /\
    messages (state r.2) = messages (state w) /\
    session_id (state r.2) = session_id (state w).
Proof.
  intros Hs r.
  destruct (test_connection_button_run server_url w Hs)
    as (ok & message & H1 & H2 & H3 & H4 & H5 & H6 & H7 & _).
  exists ok, message. repeat split; assumption.
Qed.

End ConnectionProperties.

(** ** Sessions, the debug store and what holds throughout *)

Section Throughout.
Context (E : env).

Lemma truthy_true (s : string) : truthy s = true -> s <> "".
Proof. destruct s; [discriminate | discriminate]. Qed.

Lemma paired_turn (l : list chat_message) (u a : chat_message) :
  paired l = true -> user_entry u = true -> assistant_entry a = true ->
  paired (l ++ [u; a]) = true.
Proof.
  intros Hl Hu Ha. revert Hl.
  cut (forall n (k : list chat_message), (length k <= n)%nat -> paired k = true ->
         paired (k ++ [u; a]) = true).
  { intros H. apply (H (length l)). lia. }
  induction n as [|n IH]; intros k Hk Hp.
  - destruct k; [| simpl in Hk; lia]. simpl. rewrite Hu, Ha. reflexivity.
  - destruct k as [|x [|y k]]; simpl in *.
    + rewrite Hu, Ha. reflexivity.
    + discriminate.
    + apply andb_true_iff in Hp as [Hxy Hk'].
      rewrite Hxy. simpl. apply IH; [lia | exact Hk'].
Qed.

(** The chat block, whatever it is given. *)
Lemma chat_input_cases server_url provider model use_memory user_input w :
  let w' := (chat_input E server_url provider model use_memory user_input w).2 in
  (messages (state w') = messages (state w) \/
   exists u a, messages (state w') = messages (state w) ++ [u; a] /\
               user_entry u = true /\ assistant_entry a = true) /\
  session_id (state w') = session_id (state w) /\
  connection_status (state w') = connection_status (state w) /\
  logs_extended w w' /\
  (length (sent w') <= S (length (sent w)))%nat.
Proof.
  assert (Same :
    forall w0, w0 = w \/ (state w0 = state w /\ sent w0 = sent w /\ stdout w0 = stdout w) ->
    (messages (state w0) = messages (state w) \/
     exists u a, messages (state w0) = messages (state w) ++ [u; a] /\
                 user_entry u = true /\ assistant_entry a = true) /\
    session_id (state w0) = session_id (state w) /\
    connection_status (state w0) = connection_status (state w) /\
    logs_extended w w0 /\
    (length (sent w0) <= S (length (sent w)))%nat).
  { intros w0 [-> | (Hst & Hse & Hso)].
    - repeat split; auto using logs_extended_refl.
    - rewrite Hst, Hse. repeat split; auto.
      exists []. rewrite Hst, Hso, !app_nil_r. auto. }
  destruct user_input as [user_input|]; [| apply Same; left; reflexivity].
  destruct (truthy user_input) eqn:Hu;
    [| unfold chat_input; rewrite Hu; apply Same; left; reflexivity].
  destruct (truthy server_url) eqn:Hs;
    [| unfold chat_input; rewrite Hu, Hs; apply Same; right; auto].
  clear Same. apply truthy_true in Hu, Hs.
  pose proof (chat_input_turn_frame E server_url provider model use_memory user_input w
                Hu Hs) as (_ & Hi & Hc & _ & Hl).
  pose proof (chat_input_turn E server_url provider model use_memory user_input w Hu Hs)
    as H.
  destruct (selected _ _ _ _ _) as [tool_name arguments].
  destruct H as [Hm Hsent]. cbv zeta. rewrite Hsent, length_app. simpl.
  split; [| repeat split; auto; lia].
  right. do 2 eexists. split; [exact Hm |]. split; [reflexivity |].
  unfold reply. repeat case_match; reflexivity.
Qed.

(** The debug section reads the store and empties it at most. *)
Lemma debug_logs_section_frame show_debug clear_clicked w :
  let w' := (debug_logs_section show_debug clear_clicked w).2 in
  messages (state w') = messages (state w) /\
  session_id (state w') = session_id (state w) /\
  connection_status (state w') = connection_status (state w) /\
  sent w' = sent w /\
  (debug_logs (state w') = debug_logs (state w) \/ debug_logs (state w') = []).
Proof.
  unfold debug_logs_section. unfold_ops. simp.
  destruct show_debug; simp; [| auto 6].
  destruct (0 <? Z.of_nat (length (debug_logs (state w)))); simp; [| auto 6].
  destruct clear_clicked; simp; [auto 6 |].
  match goal with |- context [for_each ?l ?f ?W] =>
    change (for_each l f W)
      with (for_each l (fun log => show (st_text (log_line log))) W)
  end.
  rewrite for_each_show. simp. auto 6.
Qed.

(** Every interaction keeps the session state healthy and makes at most
    one request; only the connection test touches the status. *)
Lemma interact_keeps i w :
  healthy w ->
  let w' := (interact E i w).2 in
  healthy w' /\
  (length (sent w') <= S (length (sent w)))%nat /\
  ((forall u, i <> TestConnection u) ->
   connection_status (state w') = connection_status (state w)).
Proof.
  intros (Hp & (ms & Hi) & Hk). destruct i as [u| | |u p m um ui|s c]; cbv zeta.
  - simpl interact. destruct (truthy u) eqn:Hu.
    + apply truthy_true in Hu.
      destruct (test_connection_button_run E u w Hu)
        as (ok & msg & _ & _ & _ & _ & Hs & Hm & Hid & (new & L1 & _ & L3)).
      split; [| split].
      * split; [rewrite Hm; exact Hp |]. split; [exists ms; rewrite Hid; exact Hi |].
        rewrite L1. apply Forall_app; auto.
      * rewrite Hs, length_app. simpl. lia.
      * intros Hn. destruct (Hn u). reflexivity.
    + destruct u; [| discriminate]. simpl.
      split; [| split]; [repeat split; eauto | lia |].
      intros Hn. destruct (Hn ""). reflexivity.
  - simpl. split; [| split]; [repeat split; eauto | lia | reflexivity].
  - simpl. split; [| split]; [repeat split; eauto | lia | reflexivity].
  - simpl interact.
    destruct (chat_input_cases u p m um ui w) as (Hm & Hid & Hc & (new & L1 & _ & L3) & Hs).
    split; [| split]; [| exact Hs | intros _; exact Hc].
    split; [| split].
    + destruct Hm as [-> | (x & y & -> & Hx & Hy)]; [exact Hp |].
      apply paired_turn; assumption.
    + exists ms. rewrite Hid. exact Hi.
    + rewrite L1. apply Forall_app; auto.
  - simpl interact.
    destruct (debug_logs_section_frame s c w) as (Hm & Hid & Hc & Hs & Hl).
    split; [| split]; [| rewrite Hs; lia | intros _; exact Hc].
    split; [rewrite Hm; exact Hp |]. split; [exists ms; rewrite Hid; exact Hi |].
    destruct Hl as [-> | ->]; [exact Hk | constructor].
Qed.

(** X20.  Clear Chat keeps the session and New Session starts another:
    a turn with memory that follows Clear Chat sends the session id held
    before, one that follows New Session sends the id named after the
    clock at the reset.  In both cases the log then holds that turn only. *)
Theorem session_id_sent_after_reset server_url provider model user_input w :
  user_input <> "" -> server_url <> "" ->
  let after_clear :=
    (chat_input E server_url provider model true (Some user_input)
       (clear_chat_button w).2).2 in
  let after_new :=
    (chat_input E server_url provider model true (Some user_input)
       (new_session_button E w).2).2 in
  (exists id,
     sent after_clear = sent w ++
       [tools_call_request server_url id "conversation_with_memory"
          (JDict [("message", JString user_input);
                  ("sessionId", JString (session_id (state w)));
                  ("provider", JString provider)])]) /\
  (exists id,
     sent after_new = sent w ++
       [tools_call_request server_url id "conversation_with_memory"
          (JDict [("message", JString user_input);
                  ("sessionId", JString (session_name (time_ms E (clock w))));
                  ("provider", JString provider)])]) /\
  length (messages (state after_clear)) = 2%nat /\
  length (messages (state after_new)) = 2%nat.
Proof.
  intros Hu Hs after_clear after_new. subst after_clear after_new.
  pose proof (chat_input_turn E server_url provider model true user_input
                (clear_chat_button w).2 Hu Hs) as (Hm1 & Hs1).
  pose proof (chat_input_turn E server_url provider model true user_input
                (new_session_button E w).2 Hu Hs) as (Hm2 & Hs2).
  split; [eexists; exact Hs1 |]. split; [eexists; exact Hs2 |].
  rewrite Hm1, Hm2. split; reflexivity.
Qed.


(** X22.  Clear Debug Logs, which is there only while the section is on
    and the store is not empty, empties the store and reruns; the next
    view of the section shows nothing.  With the section off the store is
    neither shown nor cleared. *)
Theorem debug_logs_section_clear w :
  debug_logs (state w) <> [] ->
  let r := debug_logs_section true true w in
  r.1 = Raise (Exc RerunException "") /\
  debug_logs (state r.2) = [] /\
  messages (state r.2) = messages (state w) /\
  (forall show_debug clear_clicked,
     debug_logs_section show_debug clear_clicked r.2 = (Ok tt, r.2)) /\
  (forall clear_clicked, debug_logs_section false clear_clicked w = (Ok tt, w)).
Proof.
  intros Hne r. subst r. unfold debug_logs_section. unfold_ops. simp.
  destruct (debug_logs (state w)) as [|l ls] eqn:Hl; [congruence |].
  assert (Hlt : (0 <? Z.of_nat (length (l :: ls))) = true)
    by (apply Z.ltb_lt; simpl; lia).
  rewrite Hlt. simp. repeat split.
  intros show_debug clear_clicked. rewrite andb_false_r. reflexivity.
Qed.

(** X23.  At every moment of a session, from the first run on and
    whatever the server, the transport and the user do: the message log is
    a sequence of turns, each a user message followed by its reply; the
    session id is ["session-"] followed by a reading of the clock; every
    entry of the debug store has one of the three types the view knows. *)
Theorem session_stays_healthy (l : list interaction) :
  let w := interactions E l (first_run E) in
  paired (messages (state w)) = true /\
  (exists ms : Z, session_id (state w) = "session-" +:+ pretty ms) /\
  Forall (fun e => log_type e = "info" \/ log_type e = "success" \/
                   log_type e = "error") (debug_logs (state w)).
Proof.
  assert (H : forall l w, healthy w -> healthy (interactions E l w)).
  { clear l. induction l as [|i l IH]; intros w Hw; [exact Hw |].
    simpl. apply IH. apply (interact_keeps i w Hw). }
  assert (H0 : healthy (first_run E)).
  { split; [reflexivity |]. split; [eexists; reflexivity | constructor]. }
  destruct (H l _ H0) as (Hp & Hi & Hk). repeat split; [exact Hp | exact Hi |].
  eapply Forall_impl; [exact Hk |]. intros e He. unfold known_type in He.
  apply orb_true_iff in He as [He | He]; [apply orb_true_iff in He as [He | He] |];
    apply String.eqb_eq in He; auto.
Qed.

(** X24.  No interaction makes more than one request: after any sequence
    of interactions from the first run, the requests made are at most as
    many as the interactions.  There are no retries. *)
Theorem requests_at_most_interactions (l : list interaction) :
  (length (sent (interactions E l (first_run E))) <= length l)%nat.
Proof.
  assert (H : forall l w, healthy w ->
                (length (sent (interactions E l w)) <= length (sent w) + length l)%nat).
  { clear l. induction l as [|i l IH]; intros w Hw; simpl; [lia |].
    destruct (interact_keeps i w Hw) as (Hw' & Hs & _).
    specialize (IH _ Hw'). cbv zeta in Hs. lia. }
  assert (H0 : healthy (first_run E)).
  { split; [reflexivity |]. split; [eexists; reflexivity | constructor]. }
  apply (H l _ H0).
Qed.

(** X25.  Only the connection test sets the connection status: as long as
    Test Connection has not been pressed the status is the [unknown] of
    the first run, whatever else happened. *)
Theorem status_unknown_until_tested (l : list interaction) :
  Forall (fun i => forall u, i <> TestConnection u) l ->
  connection_status (state (interactions E l (first_run E))) = status_unknown.
Proof.
  assert (H : forall l w, healthy w ->
                Forall (fun i => forall u, i <> TestConnection u) l ->
                connection_status (state (interactions E l w)) =
                connection_status (state w)).
  { clear l. induction l as [|i l IH]; intros w Hw Hl; simpl; [reflexivity |].
    apply Forall_cons in Hl as [Hi Hl].
    destruct (interact_keeps i w Hw) as (Hw' & _ & Hc).
    rewrite (IH _ Hw' Hl). apply Hc, Hi. }
  assert (H0 : healthy (first_run E)).
  { split; [reflexivity |]. split; [eexists; reflexivity | constructor]. }
  intros Hl. apply (H l _ H0 Hl).
Qed.

End Throughout.

(** ** The further properties at concrete inputs *)

Lemma call_mcp_tool_fault_text_demo :
  (call_mcp_tool Cases.unreachable_server Demo.url "chat" (JDict [])
     (first_run Cases.unreachable_server)).1 =
    Raise (Exc Exception "Connection failed. Check your server URL.").
Proof.
  exact (call_mcp_tool_fault_text Cases.unreachable_server Demo.url "chat" (JDict [])
           (first_run Cases.unreachable_server) Cases.unreachable eq_refl).
Defined.

Lemma call_mcp_tool_not_json_demo :
  (call_mcp_tool Cases.gateway_server Demo.url "chat" (JDict [])
     (first_run Cases.gateway_server)).1 =
    Raise (Exc Exception "Error: Expecting value: line 1 column 1 (char 0)").
Proof.
  exact (call_mcp_tool_not_json Cases.gateway_server Demo.url "chat" (JDict [])
           (first_run Cases.gateway_server) Cases.bad_gateway _ eq_refl eq_refl).
Defined.

Lemma call_mcp_tool_missing_result_demo :
  (call_mcp_tool Cases.empty_object_server Demo.url "chat" (JDict [])
     (first_run Cases.empty_object_server)).1 =
    Raise (Exc Exception "Error: 'result'").
Proof.
  exact (call_mcp_tool_missing_result Cases.empty_object_server Demo.url "chat" (JDict [])
           (first_run Cases.empty_object_server)
           {| status_code := 200; text := json_dumps Cases.empty_object;
              json := Json Cases.empty_object |}
           [] eq_refl eq_refl eq_refl eq_refl).
Defined.

Lemma call_mcp_tool_error_without_message_demo :
  (call_mcp_tool Cases.error_code_server Demo.url "chat" (JDict [])
     (first_run Cases.error_code_server)).1 =
    Raise (Exc Exception "Error: {'code': -32000}").
Proof.
  exact (call_mcp_tool_error_without_message Cases.error_code_server Demo.url "chat"
           (JDict []) (first_run Cases.error_code_server)
           {| status_code := 200; text := json_dumps Cases.error_code_only;
              json := Json Cases.error_code_only |}
           [("error", JDict [("code", JInt (-32000))])] [("code", JInt (-32000))]
           eq_refl eq_refl eq_refl eq_refl).
Defined.

Lemma call_mcp_tool_error_not_object_demo :
  (call_mcp_tool Cases.error_text_server Demo.url "chat" (JDict [])
     (first_run Cases.error_text_server)).1 =
    Raise (Exc Exception "Error: 'str' object has no attribute 'get'").
Proof.
  exact (call_mcp_tool_error_not_object Cases.error_text_server Demo.url "chat"
           (JDict []) (first_run Cases.error_text_server)
           {| status_code := 200; text := json_dumps Cases.error_text;
              json := Json Cases.error_text |}
           [("error", JString "boom")] (JString "boom")
           eq_refl eq_refl eq_refl ltac:(discriminate)).
Defined.

Lemma chat_input_connection_error_demo :
  exists t1 t2,
    messages (state (chat_input Cases.unreachable_server Demo.url "openai"
                       "gpt-3.5-turbo" false (Some "hi")
                       (first_run Cases.unreachable_server)).2) =
      [{| role := user; content := JString "hi"; timestamp := t1; is_error := None |};
       {| role := assistant;
          content := JString
            ("Error: Connection failed. Check your server URL."
             +:+ nl +:+ nl +:+ "Please check your server URL and API keys.");
          timestamp := t2; is_error := Some true |}].
Proof.
  exact (chat_input_connection_error Cases.unreachable_server Demo.url "openai"
           "gpt-3.5-turbo" false "hi" (first_run Cases.unreachable_server)
           "Connection refused"
           ltac:(discriminate) ltac:(discriminate) (fun _ => eq_refl)).
Defined.

Lemma chat_input_success_demo :
  exists t1 t2,
    messages (state (chat_input Cases.hello_server Demo.url "openai" "gpt-3.5-turbo"
                       true (Some "hi") (first_run Cases.hello_server)).2) =
      [{| role := user; content := JString "hi"; timestamp := t1; is_error := None |};
       {| role := assistant; content := JString "Hello!";
          timestamp := t2; is_error := Some false |}].
Proof.
  exact (chat_input_success Cases.hello_server Demo.url "openai" "gpt-3.5-turbo" true
           "hi" (first_run Cases.hello_server)
           {| status_code := 200; text := json_dumps Cases.hello;
              json := Json Cases.hello |}
           _ _ [("type", JString "text"); ("text", JString "Hello!")] [] (JString "Hello!")
           ltac:(discriminate) ltac:(discriminate) (fun _ => eq_refl)
           eq_refl eq_refl eq_refl eq_refl eq_refl).
Defined.

Lemma chat_input_malformed_result_demo :
  (chat_input Cases.empty_result_server Demo.url "openai" "gpt-3.5-turbo" true
     (Some "hi") (first_run Cases.empty_result_server)).1 =
    Raise (Exc RerunException "") /\
  exists t1 t2,
    messages (state (chat_input Cases.empty_result_server Demo.url "openai"
                       "gpt-3.5-turbo" true (Some "hi")
                       (first_run Cases.empty_result_server)).2) =
      [{| role := user; content := JString "hi"; timestamp := t1; is_error := None |};
       {| role := assistant;
          content := JString ("Error: 'content'" +:+ nl +:+ nl +:+
                              "Please check your server URL and API keys.");
          timestamp := t2; is_error := Some true |}].
Proof.
  exact (chat_input_malformed_result Cases.empty_result_server Demo.url "openai"
           "gpt-3.5-turbo" true "hi" (first_run Cases.empty_result_server)
           {| status_code := 200; text := json_dumps Cases.empty_result;
              json := Json Cases.empty_result |}
           [("result", JDict [])] (JDict []) (Exc KeyError "'content'")
           ltac:(discriminate) ltac:(discriminate) (fun _ => eq_refl)
           eq_refl eq_refl eq_refl eq_refl).
Defined.

Lemma chat_input_always_replies_demo :
  (chat_input Cases.gateway_server Demo.url "anthropic" "claude-3-sonnet-20240229"
     false (Some "hi") (first_run Cases.gateway_server)).1 =
    Raise (Exc RerunException "") /\
  length (sent (chat_input Cases.gateway_server Demo.url "anthropic"
                  "claude-3-sonnet-20240229" false (Some "hi")
                  (first_run Cases.gateway_server)).2) = 1%nat.
Proof.
  destruct (chat_input_always_replies Cases.gateway_server Demo.url "anthropic"
              "claude-3-sonnet-20240229" false "hi" (first_run Cases.gateway_server)
              ltac:(discriminate) ltac:(discriminate)) as (H1 & _ & H3).
  split; [exact H1 | exact H3].
Defined.

Lemma test_connection_success_only_if_demo :
  exists r data name,
    requests_post Demo.fuse_server 0 (initialize_request Demo.url) = Responds r /\
    json r = Json data /\
    contains "error" data = Ok false /\
    contains "result" data = Ok true /\
    "Connected to Fuse" = "Connected to " +:+ name.
Proof.
  exact (test_connection_success_only_if Demo.fuse_server Demo.url
           (first_run Demo.fuse_server) "Connected to Fuse" eq_refl).
Defined.

Lemma test_connection_unexpected_format_demo :
  (test_connection Cases.empty_object_server Demo.url
     (first_run Cases.empty_object_server)).1 =
    Ok (false, "Unexpected response format").
Proof.
  exact (test_connection_unexpected_format Cases.empty_object_server Demo.url
           (first_run Cases.empty_object_server)
           {| status_code := 200; text := json_dumps Cases.empty_object;
              json := Json Cases.empty_object |}
           [] eq_refl eq_refl eq_refl eq_refl).
Defined.

Lemma test_connection_unknown_error_demo :
  (test_connection Cases.error_code_server Demo.url
     (first_run Cases.error_code_server)).1 =
    Ok (false, "Server error: Unknown error").
Proof.
  exact (test_connection_unknown_error Cases.error_code_server Demo.url
           (first_run Cases.error_code_server)
           {| status_code := 200; text := json_dumps Cases.error_code_only;
              json := Json Cases.error_code_only |}
           [("error", JDict [("code", JInt (-32000))])] [("code", JInt (-32000))]
           eq_refl eq_refl eq_refl eq_refl).
Defined.

Lemma test_connection_not_json_demo :
  (test_connection Cases.gateway_server Demo.url (first_run Cases.gateway_server)).1 =
    Ok (false, "Expecting value: line 1 column 1 (char 0)") /\
  map log_message
    (debug_logs (state (test_connection Cases.gateway_server Demo.url
                          (first_run Cases.gateway_server)).2)) =
    ["Testing connection to: http://localhost:3000/mcp";
     "Response status: 502";
     "Connection failed: Expecting value: line 1 column 1 (char 0)"].
Proof.
  exact (test_connection_not_json Cases.gateway_server Demo.url
           (first_run Cases.gateway_server) Cases.bad_gateway _ eq_refl eq_refl).
Defined.

Lemma error_wins_over_result_demo :
  (call_mcp_tool Demo.both_server Demo.url "chat" (JDict [])
     (first_run Demo.both_server)).1 =
    Raise (Exc Exception "Error: bad key") /\
  (test_connection Demo.both_server Demo.url (first_run Demo.both_server)).1 =
    Ok (false, "Server error: bad key").
Proof.
  exact (error_wins_over_result Demo.both_server Demo.url "chat" (JDict [])
           (first_run Demo.both_server)
           {| status_code := 200; text := json_dumps Demo.error_and_result;
              json := Json Demo.error_and_result |}
           _ [("message", JString "bad key")] (JString "bad key")
           (JDict [("serverInfo", JDict [("name", JString "Fuse")])])
           (fun _ => eq_refl) eq_refl eq_refl eq_refl eq_refl).
Defined.

Lemma test_connection_button_settles_demo :
  connection_status
    (state (test_connection_button Cases.unreachable_server Demo.url
              (first_run Cases.unreachable_server)).2) = status_error /\
  page (test_connection_button Cases.unreachable_server Demo.url
          (first_run Cases.unreachable_server)).2 = [st_error "Connection refused"].
Proof.
  destruct (test_connection_button_settles Cases.unreachable_server Demo.url
              (first_run Cases.unreachable_server) ltac:(discriminate))
    as (ok & message & Ht & _ & Hc & Hp & _).
  injection Ht as <- <-. split; [exact Hc | exact Hp].
Defined.

Lemma session_id_sent_after_reset_demo :
  exists id,
    sent (chat_input Cases.hello_server Demo.url "openai" "gpt-3.5-turbo" true
            (Some "hi")
            (new_session_button Cases.hello_server (first_run Cases.hello_server)).2).2 =
      [tools_call_request Demo.url id "conversation_with_memory"
         (JDict [("message", JString "hi");
                 ("sessionId", JString (session_name 1700000000001));
                 ("provider", JString "openai")])].
Proof.
  destruct (session_id_sent_after_reset Cases.hello_server Demo.url "openai"
              "gpt-3.5-turbo" "hi" (first_run Cases.hello_server)
              ltac:(discriminate) ltac:(discriminate)) as (_ & H & _).
  exact H.
Defined.


Lemma debug_logs_section_clear_demo :
  debug_logs
    (state (debug_logs_section true true
              (test_connection Demo.fuse_server Demo.url
                 (first_run Demo.fuse_server)).2).2) = [].
Proof.
  destruct (debug_logs_section_clear
              (test_connection Demo.fuse_server Demo.url (first_run Demo.fuse_server)).2
              ltac:(discriminate)) as (_ & H & _).
  exact H.
Defined.

Lemma status_unknown_until_tested_demo :
  connection_status
    (state (interactions Cases.hello_server
              [ChatInput Demo.url "openai" "gpt-3.5-turbo" true (Some "hi");
               DebugLogs true false; NewSession; ClearChat]
              (first_run Cases.hello_server))) = status_unknown.
Proof.
  apply (status_unknown_until_tested Cases.hello_server).
  repeat constructor; discriminate.
Defined.

(** The text of a name that is no string is its Python text: a character
    that is not printable is escaped in it. *)
Example test_connection_spaced_name :
  (test_connection Cases.spaced_server Demo.url (first_run Cases.spaced_server)).1 =
    Ok (true, "Connected to ['a\xa0b']").
Proof. vm_compute. reflexivity. Qed.

(** The connection test on an object with neither [error] nor [result]
    logs nothing after the status; on an [error] that is no object it logs
    the error and then the exception. *)
Example test_connection_debug_log_cases :
  map log_message
    (debug_logs (state (test_connection Cases.empty_object_server Demo.url
                          (first_run Cases.empty_object_server)).2)) =
    ["Testing connection to: http://localhost:3000/mcp";
     "Response status: 200"] /\
  map log_message
    (debug_logs (state (test_connection Cases.error_text_server Demo.url
                          (first_run Cases.error_text_server)).2)) =
    ["Testing connection to: http://localhost:3000/mcp";
     "Response status: 200";
     "Server error: " +:+ json_dumps (JString "boom");
     "Connection failed: 'str' object has no attribute 'get'"].
Proof. split; vm_compute; reflexivity. Qed.
